(** * Revision resolution for a remote device: a model of [util.js]

    The module under study pulls files off a device through [adb] and
    extracts the Gecko and Gaia revisions from them.  It is written with
    promises and stream event handlers.  The embedding below keeps that
    shape:

    - a promise is its settlement state, settled at most once;
    - a stream is the list of events it delivers, and every handler of the
      source is a transition on the variables it closes over;
    - the device, the temporary directories, the local file system and the
      two static cache fields live in an explicit world that is threaded
      through the calls; a call is run until nothing is left to happen, so
      a promise that is still [Pending] in a result never settles.

    Buffers are strings and [toString()] is the identity; [path.join] is
    that of Node on POSIX; the other libraries ([sax], [unzip], [fs],
    [temp], the [adb] command) are taken by the events and outcomes they
    deliver. *)

From Stdlib Require Import Ascii.
From stdpp Require Import base option gmap strings list pretty.

(** ** JavaScript values, strings and paths *)

Module Js.

(** The values stored in [sha] and in the cache fields: [null],
    [undefined] or a string. *)
Inductive value : Type :=
| Null
| Undefined
| Str (s : string).

(** [if (v)] and [!v]: only a non-empty string is truthy. *)
Definition truthy (v : value) : bool :=
  match v with
  | Str s => negb (String.eqb s "")
  | _ => false
  end.

(** Reading a property or an array index that may be absent. *)
Definition of_option (o : option string) : value :=
  match o with
  | Some s => Str s
  | None => Undefined
  end.

(** [s.split(sep)] for a one-character separator. The result is never
    empty: the empty string splits into one empty piece. *)
Fixpoint split (sep : Ascii.ascii) (s : string) : list string :=
  match s with
  | EmptyString => [EmptyString]
  | String c rest =>
      if Ascii.eqb c sep then EmptyString :: split sep rest
      else match split sep rest with
           | piece :: pieces => String c piece :: pieces
           | [] => [String c EmptyString]
           end
  end.

(** [line.indexOf(key)]; [None] stands for [-1]. *)
Definition indexOf (line key : string) : option nat :=
  String.index 0 key line.

(** Node's [path], POSIX flavour. *)

Definition nonempty (s : string) : bool := negb (String.eqb s "").

(** [path.charAt(0) === '/'] *)
Definition isAbsolute (path : string) : bool :=
  match path with
  | String c _ => Ascii.eqb c "/"
  | EmptyString => false
  end.

(** [path[path.length - 1] === '/'] *)
Fixpoint trailingSlash (path : string) : bool :=
  match path with
  | EmptyString => false
  | String c EmptyString => Ascii.eqb c "/"
  | String _ rest => trailingSlash rest
  end.

(** One turn of the loop of [normalizeArray], which visits the parts from
    the last to the first: [.] is dropped, [..] is dropped and counted in
    [up], and any other part is dropped against a pending [..] or kept. *)
Definition normalizeArray_step (part : string) (acc : list string * nat)
  : list string * nat :=
  let (kept, up) := acc in
  if String.eqb part "." then (kept, up)
  else if String.eqb part ".." then (kept, S up)
  else match up with
       | S up' => (kept, up')
       | O => (part :: kept, O)
       end.

(** [normalizeArray(parts, allowAboveRoot)] *)
Definition normalizeArray (parts : list string) (allowAboveRoot : bool)
  : list string :=
  let (kept, up) := fold_right normalizeArray_step ([], 0) parts in
  if allowAboveRoot then List.repeat ".." up ++ kept else kept.

(** [path.normalize(path)] *)
Definition normalize (path : string) : string :=
  let absolute := isAbsolute path in
  let segments := List.filter nonempty (split "/" path) in
  let joined :=
    String.concat "/" (normalizeArray segments (negb absolute)) in
  let joined :=
    if String.eqb joined "" && negb absolute then "." else joined in
  let joined :=
    if nonempty joined && trailingSlash path then joined +:+ "/"
    else joined in
  (if absolute then "/" else "") +:+ joined.

(** [path.join(a, b)]: the non-empty arguments are joined with [/] and the
    result is normalised. *)
Definition join (a b : string) : string :=
  normalize (String.concat "/" (List.filter nonempty [a; b])).

End Js.

(** The constants of [PATHS]. *)
Module PATHS.
Definition SYSTEM : string := "/system".
Definition SYSTEM_B2G : string := "/system/b2g".
Definition SETTINGS : string := "webapps/settings.gaiamobile.org".
Definition B2G_SETTINGS : string := Js.join SYSTEM_B2G SETTINGS.
Definition DATA_LOCAL_SETTINGS : string := Js.join "/data/local" SETTINGS.
Definition APPLICATION_INI : string := "application.ini".
Definition PLATFORM_INI : string := "platform.ini".
Definition APPLICATION_ZIP : string := "application.zip".
Definition SOURCES_XML : string := "sources.xml".
Definition GAIA_COMMIT : string := "resources/gaia_commit.txt".
End PATHS.

(** ** Promises *)

(** What a promise is rejected with. *)
Inductive reason : Type :=
| ErrorObj (message : string)       (* new Error(message) *)
| Message (s : string)              (* a bare string *)
| ReferenceError (ident : string).  (* an unbound identifier was read *)

Inductive promise (A : Type) : Type :=
| Pending
| Fulfilled (v : A)
| Rejected (e : reason).

Arguments Pending {A}.
Arguments Fulfilled {A} v.
Arguments Rejected {A} e.

(** [resolve] and [reject] only act on a pending promise. *)
Definition resolve {A} (v : A) (p : promise A) : promise A :=
  match p with
  | Pending => Fulfilled v
  | _ => p
  end.

Definition reject {A} (e : reason) (p : promise A) : promise A :=
  match p with
  | Pending => Rejected e
  | _ => p
  end.

(** ** The archive entry extractor, [readFileFromZip] *)

(** An entry of the archive as [unzip.Parse()] delivers it: its internal
    path and the chunks its content stream emits. *)
Record entry : Type := Entry {
  entry_path : string;
  entry_data : list string
}.

Module Zip.

(** The variables the two handlers share, and the entries on which
    [autodrain()] was called, in order. *)
Record scan : Type := Scan {
  fileFound : bool;
  result : promise entry;
  autodrained : list entry
}.

Definition start : scan := Scan false Pending [].

(** [.on('entry', ...)] *)
Definition on_entry (filePath : string) (st : scan) (e : entry) : scan :=
  if negb (String.eqb (entry_path e) filePath)
  then Scan (fileFound st) (result st) (autodrained st ++ [e])
  else Scan true (resolve e (result st)) (autodrained st).

(** [.on('close', ...)] *)
Definition on_close (st : scan) : scan :=
  if negb (fileFound st)
  then Scan (fileFound st)
            (reject (ErrorObj "Zip file not found") (result st))
            (autodrained st)
  else st.

Definition run (filePath : string) (entries : list entry) : scan :=
  on_close (fold_left (on_entry filePath) entries start).

End Zip.

Definition readFileFromZip (entries : list entry) (filePath : string)
  : promise entry :=
  Zip.result (Zip.run filePath entries).

(** ** The XML scan, [getGeckoRevisionFromXml] *)

(** A node as the (non-strict) sax stream hands it to ['opentag']. *)
Record node : Type := Node {
  node_name : string;
  node_attributes : gmap string string
}.

Module Xml.

Record scan : Type := Scan {
  sha : Js.value;
  result : promise Js.value
}.

Definition start : scan := Scan Js.Undefined Pending.

(** [node.name === 'PROJECT' && node.attributes.NAME === 'gecko'] *)
Definition is_gecko_project (n : node) : bool :=
  String.eqb (node_name n) "PROJECT" &&
  match node_attributes n !! "NAME" with
  | Some v => String.eqb v "gecko"
  | None => false
  end.

Definition revision (n : node) : Js.value :=
  Js.of_option (node_attributes n !! "REVISION").

(** [stream.on('opentag', ...)] *)
Definition on_opentag (st : scan) (n : node) : scan :=
  if is_gecko_project n
  then Scan (revision n) (resolve (revision n) (result st))
  else st.

(** [stream.on('end', ...)] *)
Definition on_end (xmlPath : string) (st : scan) : scan :=
  if negb (Js.truthy (sha st))
  then Scan (sha st)
            (reject (ErrorObj ("Unable to find revision in " +:+ xmlPath))
                    (result st))
  else st.

Definition run (xmlPath : string) (opened : list node) : scan :=
  on_end xmlPath (fold_left on_opentag opened start).

End Xml.

Definition getGeckoRevisionFromXml (xmlPath : string) (opened : list node)
  : promise Js.value :=
  Xml.result (Xml.run xmlPath opened).

(** ** The INI scan, [getGeckoRevisionFromIni] *)

Module Ini.

Record scan : Type := Scan {
  sha : Js.value;
  result : promise Js.value
}.

Definition start : scan := Scan Js.Undefined Pending.

(** [line.indexOf('SourceStamp') === -1] *)
Definition lacks_key (line : string) : bool :=
  match Js.indexOf line "SourceStamp" with
  | None => true
  | Some _ => false
  end.

(** [line.split('=')[1]] *)
Definition value_of (line : string) : Js.value :=
  Js.of_option (Js.split "="%char line !! 1).

(** [lines.some(function(line) {...})]: the callback runs on the lines
    in order until it returns [true]. *)
Fixpoint some_line (lines : list string) (st : scan) : scan :=
  match lines with
  | [] => st
  | line :: rest =>
      if lacks_key line then some_line rest st
      else Scan (value_of line) (resolve (value_of line) (result st))
  end.

(** [.on('data', function(buffer) {...})] *)
Definition on_data (st : scan) (buffer : string) : scan :=
  some_line (Js.split "010"%char buffer) st.

(** [.on('end', ...)] *)
Definition on_end (iniPath : string) (st : scan) : scan :=
  if negb (Js.truthy (sha st))
  then Scan (sha st)
            (reject (Message ("Unable to find revision in " +:+ iniPath))
                    (result st))
  else st.

Definition run (iniPath : string) (chunks : list string) : scan :=
  on_end iniPath (fold_left on_data chunks start).

End Ini.

Definition getGeckoRevisionFromIni (iniPath : string) (chunks : list string)
  : promise Js.value :=
  Ini.result (Ini.run iniPath chunks).

(** ** Reading the Gaia commit out of the archive, [readGaiaCommit] *)

(** What a stream may emit to the listeners of [readGaiaCommit]. *)
Inductive stream_event : Type :=
| Data (chunk : string)
| End
| Close.

(** The content stream of an archive entry is a [PassThrough] of
    [unzip]: it emits ['data'] for every chunk, then ['end'] (and
    ['finish']); it does not emit ['close']. *)
Definition entry_stream (data : list string) : list stream_event :=
  map Data data ++ [End].

Module Commit.

(** [sha], the promise under construction, and whether [listener] is
    still attached to ['data']. *)
Record scan : Type := Scan {
  sha : Js.value;
  result : promise Js.value;
  listening : bool
}.

Definition start : scan := Scan Js.Undefined Pending true.

(** [data.toString().split('\n')[0]] *)
Definition first_line (data : string) : Js.value :=
  Js.of_option (Js.split "010"%char data !! 0).

(** [.on('data', function listener(data) {...})] *)
Definition on_data (st : scan) (data : string) : scan :=
  if listening st then
    if negb (Js.truthy (sha st))
    then Scan (first_line data)
              (resolve (first_line data) (result st))
              false
    else st
  else st.

(** [.on('close', ...)] *)
Definition on_close (zipFile : string) (st : scan) : scan :=
  if negb (Js.truthy (sha st))
  then Scan (sha st)
            (reject (ErrorObj ("Unable to find revision in " +:+ zipFile))
                    (result st))
            (listening st)
  else st.

(** The listeners of the source: one on ['data'], one on ['close'], none
    on ['end']. *)
Definition on_event (zipFile : string) (st : scan) (ev : stream_event)
  : scan :=
  match ev with
  | Data chunk => on_data st chunk
  | Close => on_close zipFile st
  | End => st
  end.

Definition handle (zipFile : string) (events : list stream_event) : scan :=
  fold_left (on_event zipFile) events start.

(** The listeners run on the stream of an entry that holds [data]. *)
Definition run (zipFile : string) (data : list string) : scan :=
  handle zipFile (entry_stream data).

End Commit.

(** The promise [readGaiaCommit] returns, for the entries the archive at
    [zipFile] delivers. The inner [.then] is given a fulfilment handler
    only: when [readFileFromZip] rejects, neither [resolve] nor [reject]
    of the outer promise is ever called. *)
Definition readGaiaCommit_from (zipFile : string) (entries : list entry)
  : promise Js.value :=
  match readFileFromZip entries PATHS.GAIA_COMMIT with
  | Fulfilled stream =>
      Commit.result (Commit.run zipFile (entry_data stream))
  | Rejected _ => Pending
  | Pending => Pending
  end.

(** ** The device, the local machine and the cache *)

(** A local file, seen through each of the three readers of the source:
    the elements sax opens, the entries unzip delivers, the chunks
    [fs.createReadStream] emits. *)
Record file : Type := File {
  xml_opentags : list node;
  zip_entries : list entry;
  read_chunks : list string
}.

(** How an [adb pull] ends: the command fails, or it reports success and
    the file was copied or was not. *)
Inductive pull_outcome : Type :=
| PullFailed (e : reason)
| PullDone (copied : option file).

(** What the code cannot control: the error, if any, of the n-th
    [temp.mkdir]; the outcome of the n-th [adb pull], for a serial and a
    remote path; the string-valued properties of the global object. *)
Record env : Type := Env {
  temp_mkdir : nat -> option reason;
  adb_pull : nat -> string -> string -> pull_outcome;
  globals : gmap string string
}.

Record Util : Type := MkUtil { serial : string }.

Record world : Type := World {
  mkdirs : nat;                                  (* temp.mkdir calls *)
  local_fs : gmap string file;
  retrievals : list (string * string);           (* pullToTemp calls *)
  adb_pulls : list (string * string * string);   (* serial, remote, local *)
  _geckoRevision : Js.value;                     (* Util._geckoRevision *)
  _gaiaRevision : Js.value                       (* Util._gaiaRevision *)
}.

Definition initial : world := World 0 ∅ [] [] Js.Null Js.Null.

Definition M (A : Type) : Type := world -> A * world.

Definition ret {A} (a : A) : M A := fun w => (a, w).

Definition bind {A B} (m : M A) (k : A -> M B) : M B :=
  fun w => let (a, w') := m w in k a w'.

Notation "'let*' x ':=' m 'in' k" := (bind m (fun x => k))
  (at level 10, x name, m at level 100, k at level 200, only parsing).

(** [p.then(onFulfilled, onRejected)] where both handlers settle the
    promise under construction: the state they leave it in, [Pending] when
    [p] itself never settles. *)
Definition then_ {A B} (p : promise A)
    (onFulfilled : A -> M (promise B)) (onRejected : reason -> M (promise B))
  : M (promise B) :=
  match p with
  | Fulfilled v => onFulfilled v
  | Rejected e => onRejected e
  | Pending => ret Pending
  end.

(** [p.then(onFulfilled)]: a rejection passes through. *)
Definition then1 {A B} (p : promise A) (onFulfilled : A -> M (promise B))
  : M (promise B) :=
  then_ p onFulfilled (fun e => ret (Rejected e)).

Definition temp_name (n : nat) : string := "/tmp/raptor-temp" +:+ pretty n.

Section Pipeline.

Variable E : env.

(** [Util.prototype.pull] *)
Definition pull (u : Util) (remote local : string) : M (promise unit) :=
  fun w =>
    let log := adb_pulls w ++ [(serial u, remote, local)] in
    match adb_pull E (length (adb_pulls w)) (serial u) remote with
    | PullFailed e =>
        (Rejected e,
         World (mkdirs w) (local_fs w) (retrievals w) log
               (_geckoRevision w) (_gaiaRevision w))
    | PullDone None =>
        (Fulfilled (),
         World (mkdirs w) (local_fs w) (retrievals w) log
               (_geckoRevision w) (_gaiaRevision w))
    | PullDone (Some f) =>
        (Fulfilled (),
         World (mkdirs w) (<[local := f]> (local_fs w)) (retrievals w) log
               (_geckoRevision w) (_gaiaRevision w))
    end.

(** [temp.mkdir('raptor-temp', ...)]: the error or the new directory. *)
Definition mkdir : M (reason + string) :=
  fun w =>
    (match temp_mkdir E (mkdirs w) with
     | Some err => inl err
     | None => inr (temp_name (mkdirs w))
     end,
     World (S (mkdirs w)) (local_fs w) (retrievals w) (adb_pulls w)
           (_geckoRevision w) (_gaiaRevision w)).

(** [fs.exists(local, ...)] *)
Definition exists_ (local : string) : M bool :=
  fun w => (bool_decide (is_Some (local_fs w !! local)), w).

Definition note_retrieval (remotePath file : string) : M unit :=
  fun w =>
    (tt, World (mkdirs w) (local_fs w)
               (retrievals w ++ [(remotePath, file)]) (adb_pulls w)
               (_geckoRevision w) (_gaiaRevision w)).

(** [Util.prototype.pullToTemp] *)
Definition pullToTemp (u : Util) (remotePath file : string)
  : M (promise string) :=
  let* _ := note_retrieval remotePath file in
  let* made := mkdir in
  match made with
  | inl err => ret (reject err Pending)
  | inr tempDir =>
      let remote := Js.join remotePath file in
      let local := Js.join tempDir file in
      let* pulled := pull u remote local in
      then_ pulled
        (fun _ =>
           let* present := exists_ local in
           if negb present
           then ret (reject (ErrorObj "Failed to pull remote file") Pending)
           else ret (resolve tempDir Pending))
        (fun e => ret (reject e Pending))
  end.

(** [Util.prototype.pullApplicationZip] *)
Definition pullApplicationZip (u : Util) : M (promise string) :=
  let* first := pullToTemp u PATHS.B2G_SETTINGS PATHS.APPLICATION_ZIP in
  then_ first
    (fun tempDir => ret (resolve tempDir Pending))
    (fun _ =>
       let* second :=
         pullToTemp u PATHS.DATA_LOCAL_SETTINGS PATHS.APPLICATION_ZIP in
       then_ second
         (fun tempDir => ret (resolve tempDir Pending))
         (fun e => ret (reject e Pending))).

(** Reading [tempDir] in the handler of the second retrieval of
    [pullB2GIni]. That handler takes no parameter, and no function around
    it binds the name (the [tempDir] of the first fulfilment handler is
    out of scope), so the read goes to the global object and throws when
    the property is missing. *)
Definition read_tempDir : reason + string :=
  match globals E !! "tempDir" with
  | Some dir => inr dir
  | None => inl (ReferenceError "tempDir")
  end.

(** [Util.prototype.pullB2GIni] *)
Definition pullB2GIni (u : Util) : M (promise string) :=
  let* first := pullToTemp u PATHS.SYSTEM_B2G PATHS.APPLICATION_INI in
  then_ first
    (fun tempDir =>
       ret (resolve (Js.join tempDir PATHS.APPLICATION_INI) Pending))
    (fun _ =>
       let* second := pullToTemp u PATHS.SYSTEM_B2G PATHS.PLATFORM_INI in
       then_ second
         (fun _ =>
            match read_tempDir with
            | inr dir =>
                ret (resolve (Js.join dir PATHS.PLATFORM_INI) Pending)
            | inl _ =>
                (* the exception rejects the promise this [.then]
                   returns, which nobody holds *)
                ret Pending
            end)
         (fun e => ret (reject e Pending))).

(** Opening a local file with one of the readers. A path with no file
    makes the read stream emit ['error'], for which the source registers
    no handler: none of its callbacks runs. *)
Definition reading {A} (path : string) (k : file -> promise A)
  : M (promise A) :=
  fun w =>
    (match local_fs w !! path with
     | Some f => k f
     | None => Pending
     end, w).

(** [readGaiaCommit] *)
Definition readGaiaCommit (baseDir : string) : M (promise Js.value) :=
  let zipFile := Js.join baseDir PATHS.APPLICATION_ZIP in
  reading zipFile (fun f => readGaiaCommit_from zipFile (zip_entries f)).

Definition set_geckoRevision (sha : Js.value) : M unit :=
  fun w =>
    (tt, World (mkdirs w) (local_fs w) (retrievals w) (adb_pulls w)
               sha (_gaiaRevision w)).

Definition set_gaiaRevision (sha : Js.value) : M unit :=
  fun w =>
    (tt, World (mkdirs w) (local_fs w) (retrievals w) (adb_pulls w)
               (_geckoRevision w) sha).

(** [promise.then(function(sha) {...})], the cache write. *)
Definition on_success {A} (p : promise A) (store : A -> M unit) : M unit :=
  match p with
  | Fulfilled sha => store sha
  | _ => ret tt
  end.

(** The local function [pullFromIni] of [getGeckoRevision]. *)
Definition pullFromIni (u : Util) : M (promise Js.value) :=
  let* ini := pullB2GIni u in
  let* scanned :=
    then1 ini
      (fun iniPath =>
         reading iniPath
           (fun f => getGeckoRevisionFromIni iniPath (read_chunks f))) in
  then_ scanned
    (fun sha => ret (resolve sha Pending))
    (fun e => ret (reject e Pending)).

(** [Util.prototype.getGeckoRevision] *)
Definition getGeckoRevision (u : Util) : M (promise Js.value) :=
  fun w =>
    if Js.truthy (_geckoRevision w)
    then (Fulfilled (_geckoRevision w), w)
    else
      (let* pulled := pullToTemp u PATHS.SYSTEM PATHS.SOURCES_XML in
       let* promise :=
         then_ pulled
           (fun tempDir =>
              let xmlPath := Js.join tempDir PATHS.SOURCES_XML in
              let* scanned :=
                reading xmlPath
                  (fun f => getGeckoRevisionFromXml xmlPath
                              (xml_opentags f)) in
              then_ scanned
                (fun sha => ret (resolve sha Pending))
                (fun _ => pullFromIni u))
           (fun _ => pullFromIni u) in
       let* _ := on_success promise set_geckoRevision in
       ret promise) w.

(** [Util.prototype.getGaiaRevision] *)
Definition getGaiaRevision (u : Util) : M (promise Js.value) :=
  fun w =>
    if Js.truthy (_gaiaRevision w)
    then (Fulfilled (_gaiaRevision w), w)
    else
      (let* pulled := pullApplicationZip u in
       let* promise := then1 pulled readGaiaCommit in
       let* _ := on_success promise set_gaiaRevision in
       ret promise) w.

End Pipeline.

(** ** Vocabulary of the statements *)

(** The entry an extraction looks for. *)
Definition is_target (filePath : string) (e : entry) : bool :=
  String.eqb (entry_path e) filePath.

(** [c] does not occur in [s]. *)
Fixpoint free_of (c : Ascii.ascii) (s : string) : bool :=
  match s with
  | EmptyString => true
  | String x rest => negb (Ascii.eqb x c) && free_of c rest
  end.

Definition newline : string := String "010" EmptyString.

Definition lines (content : string) : list string :=
  Js.split "010"%char content.

Definition has_key (line : string) : bool := negb (Ini.lacks_key line).

Fixpoint ends_with_newline (s : string) : bool :=
  match s with
  | EmptyString => false
  | String c EmptyString => Ascii.eqb c "010"
  | String _ rest => ends_with_newline rest
  end.

(** Every chunk but the last one ends right after a newline. *)
Fixpoint line_aligned (chunks : list string) : bool :=
  match chunks with
  | [] => true
  | [_] => true
  | c :: rest => ends_with_newline c && line_aligned rest
  end.

(** The whole content of a file read in [chunks]. *)
Definition accumulate (chunks : list string) : string :=
  foldr String.append EmptyString chunks.

(** The two kinds of revision, the cache field of each, and a resolution
    request for a kind made through some [Util] instance. *)
Inductive kind : Type := Gecko | Gaia.

Definition cache (k : kind) (w : world) : Js.value :=
  match k with
  | Gecko => _geckoRevision w
  | Gaia => _gaiaRevision w
  end.

Definition request (E : env) (k : kind) (u : Util) : M (promise Js.value) :=
  match k with
  | Gecko => getGeckoRevision E u
  | Gaia => getGaiaRevision E u
  end.

(** Requests served one after the other, each to quiescence. *)
Fixpoint serve (E : env) (reqs : list (kind * Util))
  : M (list (promise Js.value)) :=
  match reqs with
  | [] => ret []
  | (k, u) :: rest =>
      let* p := request E k u in
      let* ps := serve E rest in
      ret (p :: ps)
  end.

(** The world once [sha] is written to the Gecko cache field. *)
Definition with_gecko (sha : Js.value) (w : world) : world :=
  snd (set_geckoRevision sha w).

(** The first step of the Gecko resolution did not give a revision and
    left the world at [w1]: the retrieval of [sources.xml] was rejected, or
    it succeeded and the XML scan of the retrieved file was rejected. *)
Definition falls_through (E : env) (u : Util) (w w1 : world) : Prop :=
  (exists err,
     pullToTemp E u PATHS.SYSTEM PATHS.SOURCES_XML w = (Rejected err, w1)) \/
  (exists tempDir f err,
     pullToTemp E u PATHS.SYSTEM PATHS.SOURCES_XML w = (Fulfilled tempDir, w1) /\
     local_fs w1 !! Js.join tempDir PATHS.SOURCES_XML = Some f /\
     getGeckoRevisionFromXml (Js.join tempDir PATHS.SOURCES_XML)
       (xml_opentags f) = Rejected err).

(** A computation that leaves both cache fields as they are. *)
Definition keeps_cache {A} (m : M A) : Prop :=
  forall w,
    _geckoRevision (snd (m w)) = _geckoRevision w /\
    _gaiaRevision (snd (m w)) = _gaiaRevision w.

(** The retrievals a resolution of each kind may make, in the order of
    the source. *)
Definition candidates (k : kind) : list (string * string) :=
  match k with
  | Gecko => [(PATHS.SYSTEM, PATHS.SOURCES_XML);
              (PATHS.SYSTEM_B2G, PATHS.APPLICATION_INI);
              (PATHS.SYSTEM_B2G, PATHS.PLATFORM_INI)]
  | Gaia => [(PATHS.B2G_SETTINGS, PATHS.APPLICATION_ZIP);
             (PATHS.DATA_LOCAL_SETTINGS, PATHS.APPLICATION_ZIP)]
  end.

(** The world after a retrieval, up to the local files and the pulls. *)
Definition retrieved (remotePath name : string) (w : world)
    (files : gmap string file) (pulls : list (string * string * string))
  : world :=
  World (S (mkdirs w)) files (retrievals w ++ [(remotePath, name)]) pulls
        (_geckoRevision w) (_gaiaRevision w).

(** The promise each resolution builds before it is cached. *)
Definition gecko_promise (E : env) (u : Util) : M (promise Js.value) :=
  let* pulled := pullToTemp E u PATHS.SYSTEM PATHS.SOURCES_XML in
  then_ pulled
    (fun tempDir =>
       let xmlPath := Js.join tempDir PATHS.SOURCES_XML in
       let* scanned :=
         reading xmlPath
           (fun f => getGeckoRevisionFromXml xmlPath (xml_opentags f)) in
       then_ scanned
         (fun sha => ret (resolve sha Pending))
         (fun _ => pullFromIni E u))
    (fun _ => pullFromIni E u).

Definition gaia_promise (E : env) (u : Util) : M (promise Js.value) :=
  let* pulled := pullApplicationZip E u in
  then1 pulled readGaiaCommit.

Definition promise_of (E : env) (k : kind) (u : Util)
  : M (promise Js.value) :=
  match k with
  | Gecko => gecko_promise E u
  | Gaia => gaia_promise E u
  end.

(** Writing [sha] to the cache field of a kind. *)
Definition store (k : kind) (sha : Js.value) : M unit :=
  match k with
  | Gecko => set_geckoRevision sha
  | Gaia => set_gaiaRevision sha
  end.

(** A computation that calls [temp.mkdir] as many times as it makes
    retrievals, issues at most as many [adb pull] commands, and removes no
    local file. *)
Definition accounted {A} (m : M A) : Prop :=
  forall w,
    exists n,
      mkdirs (snd (m w)) = mkdirs w + n /\
      length (retrievals (snd (m w))) = length (retrievals w) + n /\
      length (adb_pulls (snd (m w))) <= length (adb_pulls w) + n /\
      (forall path, is_Some (local_fs w !! path) ->
                    is_Some (local_fs (snd (m w)) !! path)).

(** A computation all of whose [adb pull] commands satisfy [P]. *)
Definition pulls_only (P : string * string * string -> Prop) {A} (m : M A)
  : Prop :=
  forall w,
    exists new,
      adb_pulls (snd (m w)) = adb_pulls w ++ new /\ Forall P new.

(** The remote paths a resolution of a kind may pull. *)
Definition remote_paths (k : kind) : list string :=
  map (fun c => Js.join (fst c) (snd c)) (candidates k).

(** A pull made with the serial of [u], for a remote path of kind [k]. *)
Definition pull_of (u : Util) (k : kind) (p : string * string * string)
  : Prop :=
  fst (fst p) = serial u /\ In (snd (fst p)) (remote_paths k).

(** ** Sample inputs *)

Module Sample.

Definition other_project : node :=
  Node "PROJECT" (<["NAME" := "other"]> (<["REVISION" := "111"]> ∅)).

Definition gecko_project : node :=
  Node "PROJECT" (<["NAME" := "gecko"]> (<["REVISION" := "abc123"]> ∅)).


Definition manifest : list node :=
  [Node "MANIFEST" ∅; other_project; gecko_project].

(** An element that is not a project, with the attributes of one. *)
Definition gecko_remote : node :=
  Node "REMOTE" (<["NAME" := "gecko"]> (<["REVISION" := "fff000"]> ∅)).

Definition manifest_with_remote : list node :=
  [Node "MANIFEST" ∅; gecko_remote; other_project; gecko_project].

End Sample.

(** Devices for the examples: a device is given by the files it holds;
    pulling any other path fails. *)
Module Device.

Definition u : Util := MkUtil "0123456789ABCDEF".

Definition absent : pull_outcome :=
  PullFailed (ErrorObj "remote object does not exist").

Definition holding (files : list (string * file)) : env :=
  Env (fun _ => None)
      (fun _ _ remote =>
         match find (fun entry => String.eqb (fst entry) remote) files with
         | Some entry => PullDone (Some (snd entry))
         | None => absent
         end)
      ∅.

Definition text (chunks : list string) : file := File [] [] chunks.
Definition archive (entries : list entry) : file := File [] entries [].
Definition document (opened : list node) : file := File opened [] [].

Definition empty : env := holding [].

(** Only [platform.ini] is there. *)
Definition platform_only : env :=
  holding [("/system/b2g/platform.ini",
            text ["SourceStamp=cafef00d" +:+ newline])].

(** The Settings archive is there, without the commit marker. *)
Definition unmarked_archive : env :=
  holding [("/system/b2g/webapps/settings.gaiamobile.org/application.zip",
            archive [Entry "manifest.webapp" ["{}"]])].

(** The Settings archive is there, its commit marker is empty. *)
Definition empty_marker : env :=
  holding [("/system/b2g/webapps/settings.gaiamobile.org/application.zip",
            archive [Entry "resources/gaia_commit.txt" []])].

(** Everything is at its first location. *)
Definition complete : env :=
  holding
    [("/system/sources.xml", document Sample.manifest);
     ("/system/b2g/application.ini",
      text ["SourceStamp=cafef00d" +:+ newline]);
     ("/system/b2g/webapps/settings.gaiamobile.org/application.zip",
      archive [Entry "manifest.webapp" ["{}"];
               Entry "resources/gaia_commit.txt"
                     ["f00dcafe" +:+ newline +:+ "1431000000"]])].



(** No manifest, and an [application.ini] whose stamp is empty. *)
Definition blank_stamp : env :=
  holding [("/system/b2g/application.ini", text ["SourceStamp=" +:+ newline])].

(** Only the descriptor [application.ini] is there. *)
Definition descriptor_only : env :=
  holding [("/system/b2g/application.ini",
            text ["SourceStamp=cafef00d" +:+ newline])].

(** The Settings archive is at its second location. *)
Definition archive_in_data : env :=
  holding [("/data/local/webapps/settings.gaiamobile.org/application.zip",
            archive [Entry "resources/gaia_commit.txt"
                           ["f00dcafe" +:+ newline]])].

End Device.

(** ** The promise laws the handlers rely on *)

Lemma resolve_resolve {A} (v v' : A) (p : promise A) :
  resolve v (resolve v' p) = resolve v' p.
Proof. destruct p; reflexivity. Qed.

(** ** The archive entry extractor *)

Lemma zip_fold (filePath : string) (es : list entry) (st : Zip.scan) :
  fold_left (Zip.on_entry filePath) es st =
  Zip.Scan
    (Zip.fileFound st || existsb (is_target filePath) es)
    (match find (is_target filePath) es with
     | Some e => resolve e (Zip.result st)
     | None => Zip.result st
     end)
    (Zip.autodrained st ++ List.filter (fun e => negb (is_target filePath e)) es).
Proof.
  revert st. induction es as [|e es IH]; intros st.
  - destruct st; simpl. by rewrite orb_false_r, app_nil_r.
  - cbn [fold_left]. rewrite IH. unfold Zip.on_entry, is_target.
    cbn [existsb find List.filter]. unfold is_target.
    destruct (String.eqb (entry_path e) filePath) eqn:He; simpl.
    + f_equal; [by rewrite orb_true_r |].
      destruct (find _ es); [apply resolve_resolve | done].
    + by rewrite <- app_assoc.
Qed.

Lemma zip_run (filePath : string) (es : list entry) :
  Zip.run filePath es =
  Zip.Scan
    (existsb (is_target filePath) es)
    (match find (is_target filePath) es with
     | Some e => Fulfilled e
     | None => Rejected (ErrorObj "Zip file not found")
     end)
    (List.filter (fun e => negb (is_target filePath e)) es).
Proof.
  unfold Zip.run. rewrite zip_fold. unfold Zip.on_close. simpl.
  destruct (find (is_target filePath) es) as [e|] eqn:Hf.
  - assert (existsb (is_target filePath) es = true) as ->; [|done].
    apply existsb_exists. exists e.
    apply find_some in Hf. by destruct Hf.
  - assert (existsb (is_target filePath) es = false) as ->; [|done].
    apply not_true_is_false. intros [x [Hin Hx]]%existsb_exists.
    by rewrite (find_none _ _ Hf x Hin) in Hx.
Qed.

Lemma find_first {A} (f : A -> bool) (pre post : list A) (x : A) :
  Forall (fun y => f y = false) pre -> f x = true ->
  find f (pre ++ x :: post) = Some x.
Proof.
  induction 1 as [|y pre Hy _ IH]; intros Hx; simpl.
  - by rewrite Hx.
  - rewrite Hy. by apply IH.
Qed.

Lemma find_none_Forall {A} (f : A -> bool) (l : list A) :
  find f l = None <-> Forall (fun y => f y = false) l.
Proof.
  induction l as [|y l IH]; simpl.
  - split; [constructor | done].
  - destruct (f y) eqn:Hy.
    + split; [done |]. intros H. inversion H; congruence.
    + rewrite IH. split; [by constructor | by inversion 1].
Qed.

Lemma path_differs_iff (filePath : string) (l : list entry) :
  Forall (fun e => entry_path e <> filePath) l <->
  Forall (fun e => is_target filePath e = false) l.
Proof.
  apply Forall_iff. intros e. unfold is_target.
  destruct (String.eqb_spec (entry_path e) filePath); split; congruence.
Qed.

Lemma extract_missing (entries : list entry) (filePath : string) :
  Forall (fun e => entry_path e <> filePath) entries ->
  readFileFromZip entries filePath = Rejected (ErrorObj "Zip file not found").
Proof.
  intros H%path_differs_iff%find_none_Forall.
  unfold readFileFromZip. rewrite zip_run. cbn [Zip.result]. by rewrite H.
Qed.

Lemma extract_first (pre post : list entry) (e : entry) (filePath : string) :
  Forall (fun x => entry_path x <> filePath) pre ->
  entry_path e = filePath ->
  readFileFromZip (pre ++ e :: post) filePath = Fulfilled e.
Proof.
  intros Hpre%path_differs_iff He.
  unfold readFileFromZip. rewrite zip_run. cbn [Zip.result].
  rewrite (find_first _ pre post e); [done | done |].
  unfold is_target. by apply String.eqb_eq.
Qed.

(** C7. For every archive, taken as the sequence of entries it delivers,
    and every target path: the extraction is rejected exactly when no
    entry of the whole sequence has the target path, and then with the
    not-found error; [autodrain] is called on every entry whose path
    differs from the target, in order; and when some entry has the target
    path the promise is fulfilled with the first such entry, whose content
    stream it is. *)
Theorem C7_archive_entry_extractor (entries : list entry) (filePath : string) :
  ((exists err, readFileFromZip entries filePath = Rejected err) <->
   Forall (fun e => entry_path e <> filePath) entries) /\
  (Forall (fun e => entry_path e <> filePath) entries ->
   readFileFromZip entries filePath = Rejected (ErrorObj "Zip file not found")) /\
  Zip.autodrained (Zip.run filePath entries) =
    List.filter (fun e => negb (String.eqb (entry_path e) filePath)) entries /\
  (forall pre e post,
     entries = pre ++ e :: post ->
     Forall (fun x => entry_path x <> filePath) pre ->
     entry_path e = filePath ->
     readFileFromZip entries filePath = Fulfilled e).
Proof.
  split; [|split; [|split]].
  - split.
    + intros [err Herr]. apply path_differs_iff, find_none_Forall.
      revert Herr. unfold readFileFromZip. rewrite zip_run. cbn [Zip.result].
      by destruct (find _ entries).
    + intros H. rewrite (extract_missing _ _ H). by eexists.
  - apply extract_missing.
  - by rewrite zip_run.
  - intros pre e post -> Hpre He. by apply extract_first.
Qed.

(** An archive of three entries, the second being the target. *)
Lemma C7_archive_entry_extractor_witness :
  readFileFromZip
    [Entry "a.txt" ["A"]; Entry "target.txt" ["T"]; Entry "b.txt" ["B"]]
    "target.txt" = Fulfilled (Entry "target.txt" ["T"]) /\
  readFileFromZip
    [Entry "a.txt" ["A"]; Entry "b.txt" ["B"]] "missing.txt"
  = Rejected (ErrorObj "Zip file not found").
Proof.
  split.
  - apply (proj2 (proj2 (proj2
      (C7_archive_entry_extractor
         [Entry "a.txt" ["A"]; Entry "target.txt" ["T"]; Entry "b.txt" ["B"]]
         "target.txt")))
      [Entry "a.txt" ["A"]] (Entry "target.txt" ["T"]) [Entry "b.txt" ["B"]]).
    + reflexivity.
    + repeat constructor. simpl. discriminate.
    + reflexivity.
  - apply (proj1 (proj2
      (C7_archive_entry_extractor
         [Entry "a.txt" ["A"]; Entry "b.txt" ["B"]] "missing.txt"))).
    repeat constructor; simpl; discriminate.
Defined.

(** ** The XML scan *)

Lemma xml_fold_result (opened : list node) (st : Xml.scan) :
  Xml.result (fold_left Xml.on_opentag opened st) =
  match find Xml.is_gecko_project opened with
  | Some n => resolve (Xml.revision n) (Xml.result st)
  | None => Xml.result st
  end.
Proof.
  revert st. induction opened as [|n opened IH]; intros st; [done|].
  cbn [fold_left find]. rewrite IH. unfold Xml.on_opentag.
  destruct (Xml.is_gecko_project n); [|done]. cbn [Xml.result].
  destruct (find _ opened); [apply resolve_resolve | done].
Qed.

Lemma xml_fold_unmatched (opened : list node) (st : Xml.scan) :
  Forall (fun n => Xml.is_gecko_project n = false) opened ->
  fold_left Xml.on_opentag opened st = st.
Proof.
  induction 1 as [|n opened Hn _ IH]; [done|].
  cbn [fold_left]. unfold Xml.on_opentag at 2. by rewrite Hn.
Qed.


Lemma xml_on_end_result (xmlPath : string) (st : Xml.scan) :
  Xml.result (Xml.on_end xmlPath st) =
  if Js.truthy (Xml.sha st) then Xml.result st
  else reject (ErrorObj ("Unable to find revision in " +:+ xmlPath))
              (Xml.result st).
Proof. unfold Xml.on_end. by destruct (Js.truthy (Xml.sha st)). Qed.

Lemma xml_scan (xmlPath : string) (opened : list node) :
  getGeckoRevisionFromXml xmlPath opened =
  match find Xml.is_gecko_project opened with
  | Some n => Fulfilled (Xml.revision n)
  | None => Rejected (ErrorObj ("Unable to find revision in " +:+ xmlPath))
  end.
Proof.
  unfold getGeckoRevisionFromXml, Xml.run.
  rewrite xml_on_end_result, xml_fold_result.
  destruct (find Xml.is_gecko_project opened) as [n|] eqn:Hfind.
  - by destruct (Js.truthy _).
  - apply find_none_Forall in Hfind.
    by rewrite (xml_fold_unmatched _ _ Hfind).
Qed.

Lemma not_gecko_project (m : node) :
  Xml.is_gecko_project m = false <->
  node_name m <> "PROJECT" \/ node_attributes m !! "NAME" <> Some "gecko".
Proof.
  unfold Xml.is_gecko_project.
  destruct (String.eqb_spec (node_name m) "PROJECT") as [Hname|Hname];
    cbn [andb].
  - destruct (node_attributes m !! "NAME") as [v|].
    + destruct (String.eqb_spec v "gecko") as [->|Hv]; split; try done.
      * by intros [|].
      * intros _. right. congruence.
    + split; [|done]. intros _. by right.
  - split; [|done]. intros _. by left.
Qed.

Lemma no_gecko_project (l : list node) :
  Forall (fun m => node_name m <> "PROJECT" \/
                   node_attributes m !! "NAME" <> Some "gecko") l <->
  Forall (fun m => Xml.is_gecko_project m = false) l.
Proof. apply Forall_iff. intros m. by rewrite not_gecko_project. Qed.

(** C8. For every document, taken as the stream of elements it opens: when
    an element named PROJECT whose NAME attribute is gecko is preceded
    only by elements that have another name or another NAME (or none), the
    scan is fulfilled with the REVISION attribute of that element; and the
    scan is rejected, with the not-found error, exactly when every element
    of the stream has another name or another NAME. *)
Theorem C8_xml_scan (xmlPath : string) (opened : list node) :
  (forall pre n post,
     opened = pre ++ n :: post ->
     Forall (fun m => node_name m <> "PROJECT" \/
                      node_attributes m !! "NAME" <> Some "gecko") pre ->
     node_name n = "PROJECT" ->
     node_attributes n !! "NAME" = Some "gecko" ->
     getGeckoRevisionFromXml xmlPath opened =
       Fulfilled (Js.of_option (node_attributes n !! "REVISION"))) /\
  ((exists err, getGeckoRevisionFromXml xmlPath opened = Rejected err) <->
   Forall (fun m => node_name m <> "PROJECT" \/
                    node_attributes m !! "NAME" <> Some "gecko") opened) /\
  (Forall (fun m => node_name m <> "PROJECT" \/
                    node_attributes m !! "NAME" <> Some "gecko") opened ->
   getGeckoRevisionFromXml xmlPath opened =
     Rejected (ErrorObj ("Unable to find revision in " +:+ xmlPath))).
Proof.
  rewrite xml_scan. split; [|split; [split|]].
  - intros pre n post -> Hpre%no_gecko_project Hname Hattr.
    rewrite (find_first _ pre post n); [done | done |].
    unfold Xml.is_gecko_project. by rewrite Hname, Hattr.
  - intros [err Herr]. apply no_gecko_project, find_none_Forall.
    destruct (find _ opened); [discriminate | done].
  - intros H%no_gecko_project%find_none_Forall. rewrite H. by eexists.
  - intros H%no_gecko_project%find_none_Forall. by rewrite H.
Qed.

(** A manifest where an element that is not a project carries NAME gecko,
    before another project and the gecko project: the revision is that of
    the gecko project. Without the gecko project the scan is rejected. *)
Lemma C8_xml_scan_witness :
  getGeckoRevisionFromXml "sources.xml" Sample.manifest_with_remote
    = Fulfilled (Js.Str "abc123") /\
  getGeckoRevisionFromXml "sources.xml"
    [Node "MANIFEST" ∅; Sample.gecko_remote; Sample.other_project]
    = Rejected (ErrorObj "Unable to find revision in sources.xml").
Proof.
  split.
  - refine (proj1 (C8_xml_scan "sources.xml" Sample.manifest_with_remote)
      [Node "MANIFEST" ∅; Sample.gecko_remote; Sample.other_project]
      Sample.gecko_project [] eq_refl _ eq_refl eq_refl).
    repeat (apply List.Forall_cons; [(by left) || (by right)|]).
    apply List.Forall_nil.
  - refine (proj2 (proj2 (C8_xml_scan "sources.xml"
      [Node "MANIFEST" ∅; Sample.gecko_remote; Sample.other_project])) _).
    repeat (apply List.Forall_cons; [(by left) || (by right)|]).
    apply List.Forall_nil.
Defined.



(** ** Splitting strings *)

Lemma string_app_cons (x : Ascii.ascii) (a b : string) :
  String x a +:+ b = String x (a +:+ b).
Proof. reflexivity. Qed.

Lemma string_app_nil_l (b : string) : "" +:+ b = b.
Proof. reflexivity. Qed.

Lemma string_app_nil_r (s : string) : s +:+ "" = s.
Proof.
  induction s as [|x s IH]; [done|]. by rewrite string_app_cons, IH.
Qed.

Lemma string_app_assoc (a b c : string) : (a +:+ b) +:+ c = a +:+ (b +:+ c).
Proof.
  induction a as [|x a IH]; [done|]. by rewrite !string_app_cons, IH.
Qed.

Lemma split_not_nil (c : Ascii.ascii) (s : string) : Js.split c s <> [].
Proof.
  destruct s as [|x s]; simpl; [done|].
  destruct (Ascii.eqb x c); [done|]. by destruct (Js.split c s).
Qed.

Lemma split_app (c : Ascii.ascii) (a b : string) :
  Js.split c (a +:+ String c b) = Js.split c a ++ Js.split c b.
Proof.
  induction a as [|x a IH].
  - rewrite string_app_nil_l. simpl. by rewrite Ascii.eqb_refl.
  - rewrite string_app_cons. simpl.
    destruct (Ascii.eqb x c); [by rewrite IH|].
    rewrite IH. pose proof (split_not_nil c a) as Hne.
    by destruct (Js.split c a).
Qed.

Lemma split_free (c : Ascii.ascii) (s : string) :
  free_of c s = true -> Js.split c s = [s].
Proof.
  induction s as [|x s IH]; simpl; [done|].
  intros [Hx Hs]%andb_true_iff. apply negb_true_iff in Hx.
  by rewrite Hx, (IH Hs).
Qed.

Lemma ends_with_newline_inv (s : string) :
  ends_with_newline s = true -> exists a, s = a +:+ newline.
Proof.
  induction s as [|x s IH]; simpl; [done|].
  destruct s as [|y s].
  - intros ->%Ascii.eqb_eq. by exists ""%string.
  - intros [a Ha]%IH. exists (String x a). by rewrite string_app_cons, Ha.
Qed.

Lemma find_app_first {A} (f : A -> bool) (l1 l2 : list A) :
  find f (l1 ++ l2) =
  match find f l1 with
  | Some x => Some x
  | None => find f l2
  end.
Proof.
  induction l1 as [|x l1 IH]; simpl; [done|]. by destruct (f x).
Qed.

(** ** The INI scan *)

Lemma some_line_find (ls : list string) (st : Ini.scan) :
  Ini.some_line ls st =
  match find has_key ls with
  | Some l => Ini.Scan (Ini.value_of l) (resolve (Ini.value_of l) (Ini.result st))
  | None => st
  end.
Proof.
  induction ls as [|l ls IH]; simpl; [done|]. unfold has_key.
  by destruct (Ini.lacks_key l).
Qed.

Lemma ini_fold_result (chunks : list string) (st : Ini.scan) :
  Ini.result (fold_left Ini.on_data chunks st) =
  match find has_key (flat_map lines chunks) with
  | Some l => resolve (Ini.value_of l) (Ini.result st)
  | None => Ini.result st
  end.
Proof.
  revert st. induction chunks as [|c chunks IH]; intros st; [done|].
  cbn [fold_left flat_map]. rewrite IH, find_app_first.
  unfold Ini.on_data. rewrite some_line_find. fold (lines c).
  destruct (find has_key (lines c)) as [l|]; [|done]. cbn [Ini.result].
  destruct (find _ (flat_map lines chunks)); [apply resolve_resolve | done].
Qed.

Lemma ini_fold_unmatched (chunks : list string) (st : Ini.scan) :
  find has_key (flat_map lines chunks) = None ->
  fold_left Ini.on_data chunks st = st.
Proof.
  revert st. induction chunks as [|c chunks IH]; intros st; [done|].
  cbn [fold_left flat_map]. rewrite find_app_first.
  destruct (find has_key (lines c)) eqn:Hc; [done|]. intros Hrest.
  unfold Ini.on_data. rewrite some_line_find. fold (lines c).
  rewrite Hc. by apply IH.
Qed.

Lemma ini_scan (iniPath : string) (chunks : list string) :
  getGeckoRevisionFromIni iniPath chunks =
  match find has_key (flat_map lines chunks) with
  | Some l => Fulfilled (Ini.value_of l)
  | None => Rejected (Message ("Unable to find revision in " +:+ iniPath))
  end.
Proof.
  unfold getGeckoRevisionFromIni, Ini.run, Ini.on_end.
  destruct (find has_key (flat_map lines chunks)) as [l|] eqn:Hfind.
  - destruct (negb _); cbn [Ini.result]; rewrite ini_fold_result, Hfind; done.
  - by rewrite (ini_fold_unmatched _ _ Hfind).
Qed.

Lemma line_aligned_cons (c c' : string) (chunks : list string) :
  line_aligned (c :: c' :: chunks) =
  ends_with_newline c && line_aligned (c' :: chunks).
Proof. reflexivity. Qed.

Lemma aligned_first_match (chunks : list string) :
  line_aligned chunks = true ->
  find has_key (flat_map lines chunks) =
  find has_key (lines (accumulate chunks)).
Proof.
  induction chunks as [|c chunks IH]; [done|].
  destruct chunks as [|c' chunks].
  - intros _. simpl. by rewrite app_nil_r, string_app_nil_r.
  - rewrite line_aligned_cons. intros [Hc Hrest]%andb_true_iff.
    destruct (ends_with_newline_inv _ Hc) as [a ->].
    change (flat_map lines ((a +:+ newline) :: c' :: chunks))
      with (lines (a +:+ newline) ++ flat_map lines (c' :: chunks)).
    change (accumulate ((a +:+ newline) :: c' :: chunks))
      with ((a +:+ newline) +:+ accumulate (c' :: chunks)).
    rewrite string_app_assoc. unfold lines, newline.
    rewrite string_app_cons, string_app_nil_l, !split_app, !find_app_first.
    change (Js.split "010") with lines. rewrite <- (IH Hrest).
    by destruct (find has_key (lines a)).
Qed.

(** C3, as the claim has it, fails: on a matching line with two [=] the
    scan returns the piece between them, not all that follows the first. *)
Lemma C3_ini_value_counterexample :
  getGeckoRevisionFromIni "application.ini" ["SourceStamp=a=b"]
    = Fulfilled (Js.Str "a") /\
  getGeckoRevisionFromIni "application.ini" ["SourceStamp=a=b"]
    <> Fulfilled (Js.Str "a=b").
Proof. split; [reflexivity | discriminate]. Qed.

(** C3, amended. For every file content, read as one chunk, the scan takes
    the first line that contains the key, splits it on [=] and returns the
    second piece: the text between the first [=] and the next one, or the
    end of the line when there is no other. For [SourceStamp=a=b] that is
    [a]. Without a matching line the scan is rejected. *)
Theorem C3_ini_value (iniPath content : string) :
  getGeckoRevisionFromIni iniPath [content] =
    match find has_key (lines content) with
    | Some line => Fulfilled (Js.of_option (Js.split "=" line !! 1))
    | None => Rejected (Message ("Unable to find revision in " +:+ iniPath))
    end /\
  (forall key value : string,
     free_of "=" key = true -> free_of "=" value = true ->
     Ini.value_of (key +:+ "=" +:+ value) = Js.Str value /\
     forall rest,
       Ini.value_of (key +:+ "=" +:+ value +:+ "=" +:+ rest) = Js.Str value).
Proof.
  split.
  - rewrite ini_scan. cbn [flat_map]. by rewrite app_nil_r.
  - intros key value Hkey Hvalue. unfold Ini.value_of. split.
    + change ("=" +:+ value) with (String "=" value).
      by rewrite split_app, (split_free _ _ Hkey), (split_free _ _ Hvalue).
    + intros rest.
      change ("=" +:+ value +:+ "=" +:+ rest)
        with (String "=" (value +:+ String "=" rest)).
      by rewrite !split_app, (split_free _ _ Hkey), (split_free _ _ Hvalue).
Qed.

Lemma C3_ini_value_witness :
  Ini.value_of ("SourceStamp" +:+ "=" +:+ "a" +:+ "=" +:+ "b") = Js.Str "a".
Proof.
  exact (proj2 (proj2 (C3_ini_value "application.ini" "") "SourceStamp" "a"
                  eq_refl eq_refl) "b").
Defined.

(** C9, as the claim has it, fails: a matching line cut by a chunk boundary
    is missed when the cut falls inside the key, and its value is truncated
    when the cut falls inside the value. *)
Lemma C9_ini_chunks_counterexample :
  (getGeckoRevisionFromIni "application.ini" ["SourceSt"; "amp=abc"]
     = Rejected (Message "Unable to find revision in application.ini") /\
   getGeckoRevisionFromIni "application.ini" [accumulate ["SourceSt"; "amp=abc"]]
     = Fulfilled (Js.Str "abc")) /\
  (getGeckoRevisionFromIni "application.ini" ["SourceStamp=ab"; "cd"]
     = Fulfilled (Js.Str "ab") /\
   getGeckoRevisionFromIni "application.ini" [accumulate ["SourceStamp=ab"; "cd"]]
     = Fulfilled (Js.Str "abcd")).
Proof. repeat split; reflexivity. Qed.

(** C9, amended. The scan treats every chunk on its own. For every file
    content and every partition of it into chunks that each end right after
    a newline (the last chunk may end anywhere), the scan gives the result
    of scanning the whole content line by line. *)
Theorem C9_ini_chunks (iniPath : string) (chunks : list string) :
  line_aligned chunks = true ->
  getGeckoRevisionFromIni iniPath chunks =
  getGeckoRevisionFromIni iniPath [accumulate chunks].
Proof.
  intros Haligned. rewrite !ini_scan, (aligned_first_match _ Haligned).
  cbn [flat_map]. by rewrite app_nil_r.
Qed.

Lemma C9_ini_chunks_witness :
  getGeckoRevisionFromIni "application.ini"
    ["FOO=1" +:+ newline; "SourceStamp=deadbeef" +:+ newline +:+ "BAR=2"] =
  getGeckoRevisionFromIni "application.ini"
    [accumulate
       ["FOO=1" +:+ newline; "SourceStamp=deadbeef" +:+ newline +:+ "BAR=2"]].
Proof.
  exact (C9_ini_chunks "application.ini"
    ["FOO=1" +:+ newline; "SourceStamp=deadbeef" +:+ newline +:+ "BAR=2"]
    eq_refl).
Defined.

(** ** Retrieval *)

Section Retrieval.

Variable E : env.
Variable u : Util.

(** A retrieval is logged once, leaves the cache alone, and settles. *)
Lemma pullToTemp_frame (remotePath file : string) (w : world) :
  let w' := snd (pullToTemp E u remotePath file w) in
  retrievals w' = retrievals w ++ [(remotePath, file)] /\
  _geckoRevision w' = _geckoRevision w /\
  _gaiaRevision w' = _gaiaRevision w /\
  fst (pullToTemp E u remotePath file w) <> Pending.
Proof.
  unfold pullToTemp, bind, note_retrieval, mkdir, pull, exists_, then_, ret.
  cbn [fst snd mkdirs local_fs retrievals adb_pulls
       _geckoRevision _gaiaRevision].
  destruct (temp_mkdir E (mkdirs w)); [done|].
  destruct (adb_pull E _ _ _) as [e|[f|]];
    cbn [fst snd mkdirs local_fs retrievals adb_pulls
         _geckoRevision _gaiaRevision];
    try done.
  all: destruct (negb _); done.
Qed.

(** A fulfilled retrieval names the directory made for it, and the file
    is there. *)
Lemma pullToTemp_fulfilled (remotePath file tempDir : string) (w w' : world) :
  pullToTemp E u remotePath file w = (Fulfilled tempDir, w') ->
  tempDir = temp_name (mkdirs w) /\
  is_Some (local_fs w' !! Js.join tempDir file).
Proof.
  unfold pullToTemp, bind, note_retrieval, mkdir, pull, exists_, then_, ret.
  cbn [fst snd mkdirs local_fs retrievals adb_pulls
       _geckoRevision _gaiaRevision].
  destruct (temp_mkdir E (mkdirs w)); [done|].
  destruct (adb_pull E _ _ _) as [e|[f|]];
    cbn [fst snd mkdirs local_fs retrievals adb_pulls
         _geckoRevision _gaiaRevision];
    try done.
  all: match goal with
       | |- context [bool_decide ?P] => destruct (bool_decide_reflect P)
       end; cbn [negb]; intros [= <- <-]; done.
Qed.

End Retrieval.

(** ** The two fallback chains *)

Section Fallback.

Variable E : env.
Variable u : Util.

Lemma pullToTemp_logged (r f : string) (w w1 : world) (p : promise string) :
  pullToTemp E u r f w = (p, w1) ->
  retrievals w1 = retrievals w ++ [(r, f)].
Proof.
  intros H. pose proof (pullToTemp_frame E u r f w) as Hframe.
  rewrite H in Hframe. apply Hframe.
Qed.

Lemma pullApplicationZip_first (w w1 : world) (tempDir : string) :
  pullToTemp E u PATHS.B2G_SETTINGS PATHS.APPLICATION_ZIP w
    = (Fulfilled tempDir, w1) ->
  pullApplicationZip E u w = (Fulfilled tempDir, w1).
Proof. intros H. unfold pullApplicationZip, bind. by rewrite H. Qed.

Lemma pullApplicationZip_second
    (w w1 w2 : world) (e1 : reason) (p : promise string) :
  pullToTemp E u PATHS.B2G_SETTINGS PATHS.APPLICATION_ZIP w
    = (Rejected e1, w1) ->
  pullToTemp E u PATHS.DATA_LOCAL_SETTINGS PATHS.APPLICATION_ZIP w1
    = (p, w2) ->
  pullApplicationZip E u w = (p, w2).
Proof.
  intros H1 H2. unfold pullApplicationZip, bind. rewrite H1. cbn [then_].
  unfold bind. rewrite H2. by destruct p.
Qed.

Lemma pullB2GIni_first (w w1 : world) (tempDir : string) :
  pullToTemp E u PATHS.SYSTEM_B2G PATHS.APPLICATION_INI w
    = (Fulfilled tempDir, w1) ->
  pullB2GIni E u w = (Fulfilled (Js.join tempDir PATHS.APPLICATION_INI), w1).
Proof. intros H. unfold pullB2GIni, bind. by rewrite H. Qed.

Lemma pullB2GIni_both_fail (w w1 w2 : world) (e1 e2 : reason) :
  pullToTemp E u PATHS.SYSTEM_B2G PATHS.APPLICATION_INI w
    = (Rejected e1, w1) ->
  pullToTemp E u PATHS.SYSTEM_B2G PATHS.PLATFORM_INI w1
    = (Rejected e2, w2) ->
  pullB2GIni E u w = (Rejected e2, w2).
Proof.
  intros H1 H2. unfold pullB2GIni, bind. rewrite H1. cbn [then_].
  unfold bind. by rewrite H2.
Qed.

End Fallback.

(** C6. The fallback resolver exists in the code as its two uses, each
    over a list of two candidates. In both, when the retrieval of the
    first candidate succeeds the chain resolves and the second candidate
    is not attempted; and when both retrievals fail the chain fails with
    the error of the last one, the retriever having been called once per
    candidate, in the declared order. *)
Theorem C6_location_fallback (E : env) (u : Util) (w : world) :
  (forall tempDir w1,
     pullToTemp E u PATHS.B2G_SETTINGS PATHS.APPLICATION_ZIP w
       = (Fulfilled tempDir, w1) ->
     pullApplicationZip E u w = (Fulfilled tempDir, w1) /\
     retrievals w1 =
       retrievals w ++ [(PATHS.B2G_SETTINGS, PATHS.APPLICATION_ZIP)]) /\
  (forall e1 w1 e2 w2,
     pullToTemp E u PATHS.B2G_SETTINGS PATHS.APPLICATION_ZIP w
       = (Rejected e1, w1) ->
     pullToTemp E u PATHS.DATA_LOCAL_SETTINGS PATHS.APPLICATION_ZIP w1
       = (Rejected e2, w2) ->
     pullApplicationZip E u w = (Rejected e2, w2) /\
     retrievals w2 =
       retrievals w ++ [(PATHS.B2G_SETTINGS, PATHS.APPLICATION_ZIP);
                        (PATHS.DATA_LOCAL_SETTINGS, PATHS.APPLICATION_ZIP)]) /\
  (forall tempDir w1,
     pullToTemp E u PATHS.SYSTEM_B2G PATHS.APPLICATION_INI w
       = (Fulfilled tempDir, w1) ->
     pullB2GIni E u w
       = (Fulfilled (Js.join tempDir PATHS.APPLICATION_INI), w1) /\
     retrievals w1 =
       retrievals w ++ [(PATHS.SYSTEM_B2G, PATHS.APPLICATION_INI)]) /\
  (forall e1 w1 e2 w2,
     pullToTemp E u PATHS.SYSTEM_B2G PATHS.APPLICATION_INI w
       = (Rejected e1, w1) ->
     pullToTemp E u PATHS.SYSTEM_B2G PATHS.PLATFORM_INI w1
       = (Rejected e2, w2) ->
     pullB2GIni E u w = (Rejected e2, w2) /\
     retrievals w2 =
       retrievals w ++ [(PATHS.SYSTEM_B2G, PATHS.APPLICATION_INI);
                        (PATHS.SYSTEM_B2G, PATHS.PLATFORM_INI)]).
Proof.
  split; [|split; [|split]].
  - intros tempDir w1 H. split; [by apply pullApplicationZip_first|].
    by apply (pullToTemp_logged _ _ _ _ _ _ _ H).
  - intros e1 w1 e2 w2 H1 H2.
    split; [by apply (pullApplicationZip_second _ _ _ _ _ _ _ H1)|].
    rewrite (pullToTemp_logged _ _ _ _ _ _ _ H2),
            (pullToTemp_logged _ _ _ _ _ _ _ H1).
    by rewrite <- app_assoc.
  - intros tempDir w1 H. split; [by apply pullB2GIni_first|].
    by apply (pullToTemp_logged _ _ _ _ _ _ _ H).
  - intros e1 w1 e2 w2 H1 H2.
    split; [by apply (pullB2GIni_both_fail _ _ _ _ _ _ _ H1)|].
    rewrite (pullToTemp_logged _ _ _ _ _ _ _ H2),
            (pullToTemp_logged _ _ _ _ _ _ _ H1).
    by rewrite <- app_assoc.
Qed.

Lemma C6_location_fallback_witness :
  pullApplicationZip Device.complete Device.u initial =
    (Fulfilled "/tmp/raptor-temp0",
     snd (pullToTemp Device.complete Device.u
            PATHS.B2G_SETTINGS PATHS.APPLICATION_ZIP initial)) /\
  fst (pullB2GIni Device.empty Device.u initial) = Rejected
    (ErrorObj "remote object does not exist").
Proof.
  split.
  - apply (proj1 (C6_location_fallback Device.complete Device.u initial)).
    vm_compute. reflexivity.
  - pose proof (proj1 (proj2 (proj2 (proj2
      (C6_location_fallback Device.empty Device.u initial)))
      (ErrorObj "remote object does not exist")
      (snd (pullToTemp Device.empty Device.u
              PATHS.SYSTEM_B2G PATHS.APPLICATION_INI initial))
      (ErrorObj "remote object does not exist")
      (snd (pullB2GIni Device.empty Device.u initial))
      eq_refl eq_refl)) as H.
    rewrite H. reflexivity.
Defined.

Section Chains.

Variable E : env.
Variable u : Util.

Ltac retrieve r f w p w' H :=
  pose proof (pullToTemp_frame E u r f w) as H;
  destruct (pullToTemp E u r f w) as [p w'];
  cbn [fst snd] in H; destruct H as (?Hlog & ?Hgecko & ?Hgaia & ?Hsettled).

Lemma pullApplicationZip_frame (w : world) :
  let w' := snd (pullApplicationZip E u w) in
  _geckoRevision w' = _geckoRevision w /\
  _gaiaRevision w' = _gaiaRevision w.
Proof.
  unfold pullApplicationZip, bind.
  retrieve PATHS.B2G_SETTINGS PATHS.APPLICATION_ZIP w p1 w1 H1.
  destruct p1 as [|d|e]; cbn [then_ ret snd]; [done | done |].
  unfold bind.
  retrieve PATHS.DATA_LOCAL_SETTINGS PATHS.APPLICATION_ZIP w1 p2 w2 H2.
  destruct p2; cbn [then_ ret snd]; split; congruence.
Qed.

Lemma pullB2GIni_frame (w : world) :
  let w' := snd (pullB2GIni E u w) in
  _geckoRevision w' = _geckoRevision w /\
  _gaiaRevision w' = _gaiaRevision w /\
  (retrievals w' =
     retrievals w ++ [(PATHS.SYSTEM_B2G, PATHS.APPLICATION_INI)] \/
   retrievals w' =
     retrievals w ++ [(PATHS.SYSTEM_B2G, PATHS.APPLICATION_INI);
                      (PATHS.SYSTEM_B2G, PATHS.PLATFORM_INI)]).
Proof.
  unfold pullB2GIni, bind.
  retrieve PATHS.SYSTEM_B2G PATHS.APPLICATION_INI w p1 w1 H1.
  destruct p1 as [|d|e]; cbn [then_ ret snd]; [by auto | by auto |].
  unfold bind.
  retrieve PATHS.SYSTEM_B2G PATHS.PLATFORM_INI w1 p2 w2 H2.
  assert (retrievals w2 =
            retrievals w ++ [(PATHS.SYSTEM_B2G, PATHS.APPLICATION_INI);
                             (PATHS.SYSTEM_B2G, PATHS.PLATFORM_INI)]) as Hboth.
  { rewrite Hlog0, Hlog. by rewrite <- app_assoc. }
  destruct p2; cbn [then_ ret snd]; try destruct (read_tempDir E);
    cbn [ret snd]; repeat split; try congruence; by right.
Qed.

Lemma pullFromIni_frame (w : world) :
  snd (pullFromIni E u w) = snd (pullB2GIni E u w).
Proof.
  unfold pullFromIni, bind.
  destruct (pullB2GIni E u w) as [p w1].
  destruct p as [|iniPath|e]; cbn [then1 then_ ret snd]; [done | | done].
  unfold reading. by destruct (local_fs w1 !! iniPath) as [f|];
    [destruct (getGeckoRevisionFromIni _ _)|].
Qed.

(** The INI fallback is [pullB2GIni] followed by the INI scan of the file
    it names. *)
Lemma pullFromIni_fulfilled (w w1 : world) (iniPath : string) (f : file) :
  pullB2GIni E u w = (Fulfilled iniPath, w1) ->
  local_fs w1 !! iniPath = Some f ->
  pullFromIni E u w =
    (getGeckoRevisionFromIni iniPath (read_chunks f), w1).
Proof.
  intros Hini Hfile. unfold pullFromIni, bind. rewrite Hini.
  cbn [then1 then_]. unfold reading. rewrite Hfile.
  by destruct (getGeckoRevisionFromIni _ _).
Qed.

Lemma pullFromIni_rejected (w w1 : world) (err : reason) :
  pullB2GIni E u w = (Rejected err, w1) ->
  pullFromIni E u w = (Rejected err, w1).
Proof. intros Hini. unfold pullFromIni, bind. by rewrite Hini. Qed.

Lemma pullFromIni_pending (w w1 : world) :
  pullB2GIni E u w = (Pending, w1) ->
  pullFromIni E u w = (Pending, w1).
Proof. intros Hini. unfold pullFromIni, bind. by rewrite Hini. Qed.

End Chains.

(** C2, evaluated on the code. With no [tempDir] on the global object,
    when the retrieval of [application.ini] fails and the retrieval of
    [platform.ini] succeeds, the file is on the local disk, yet
    [pullB2GIni] never settles: its promise is not resolved with the path
    of that file, and the INI scan is not run. *)
Theorem C2_platform_ini_fallback
    (E : env) (u : Util) (w w1 w2 : world) (err : reason) (tempDir : string) :
  globals E !! "tempDir" = None ->
  pullToTemp E u PATHS.SYSTEM_B2G PATHS.APPLICATION_INI w = (Rejected err, w1) ->
  pullToTemp E u PATHS.SYSTEM_B2G PATHS.PLATFORM_INI w1 = (Fulfilled tempDir, w2) ->
  is_Some (local_fs w2 !! Js.join tempDir PATHS.PLATFORM_INI) /\
  pullB2GIni E u w = (Pending, w2) /\
  pullFromIni E u w = (Pending, w2).
Proof.
  intros Hglobal Happ Hplat.
  assert (pullB2GIni E u w = (Pending, w2)) as Hini.
  { unfold pullB2GIni, bind. rewrite Happ. cbn [then_]. unfold bind.
    rewrite Hplat. cbn [then_]. unfold read_tempDir. by rewrite Hglobal. }
  split; [|split].
  - by destruct (pullToTemp_fulfilled _ _ _ _ _ _ _ Hplat).
  - done.
  - by apply pullFromIni_pending.
Qed.

Lemma C2_platform_ini_fallback_witness :
  pullB2GIni Device.platform_only Device.u initial =
    (Pending,
     snd (pullB2GIni Device.platform_only Device.u initial)) /\
  is_Some
    (local_fs (snd (pullB2GIni Device.platform_only Device.u initial))
       !! "/tmp/raptor-temp1/platform.ini").
Proof.
  destruct (C2_platform_ini_fallback Device.platform_only Device.u initial
    (snd (pullToTemp Device.platform_only Device.u
            PATHS.SYSTEM_B2G PATHS.APPLICATION_INI initial))
    (snd (pullB2GIni Device.platform_only Device.u initial))
    (ErrorObj "remote object does not exist") "/tmp/raptor-temp1"
    eq_refl eq_refl eq_refl) as (Hfile & Hini & _).
  split; [exact Hini | exact Hfile].
Defined.

(** ** The Gaia resolution *)

(** An entry without data: its stream ends, no listener has run, and the
    promise is still pending. *)
Lemma commit_no_data (zipFile : string) :
  Commit.result (Commit.run zipFile []) = Pending.
Proof. reflexivity. Qed.

(** The listener on ['close'] would reject, were the event emitted. *)
Lemma commit_close_rejects (zipFile : string) :
  Commit.result (Commit.handle zipFile [Close]) =
  Rejected (ErrorObj ("Unable to find revision in " +:+ zipFile)).
Proof. reflexivity. Qed.

(** C1, evaluated on the code, failure by failure, for a resolution that
    starts with no cached Gaia revision.
    - Both retrievals of the archive fail: the resolution is rejected, with
      the error of the second one.
    - The archive is retrieved and has no entry
      [resources/gaia_commit.txt]: the extraction is rejected, but the
      promise of the resolution stays pending for ever; the caller sees no
      failure.
    - The entry is there and its stream ends without data: the rejection
      is left to a listener on ['close'], an event the stream of an entry
      does not emit, and the promise of the resolution stays pending as
      well.
    In the three cases the cache field keeps its value. *)
Theorem C1_gaia_failures (E : env) (u : Util) (w : world) :
  Js.truthy (_gaiaRevision w) = false ->
  (forall e1 w1 e2 w2,
     pullToTemp E u PATHS.B2G_SETTINGS PATHS.APPLICATION_ZIP w
       = (Rejected e1, w1) ->
     pullToTemp E u PATHS.DATA_LOCAL_SETTINGS PATHS.APPLICATION_ZIP w1
       = (Rejected e2, w2) ->
     getGaiaRevision E u w = (Rejected e2, w2) /\
     _gaiaRevision w2 = _gaiaRevision w) /\
  (forall tempDir w1 f,
     pullApplicationZip E u w = (Fulfilled tempDir, w1) ->
     local_fs w1 !! Js.join tempDir PATHS.APPLICATION_ZIP = Some f ->
     Forall (fun e => entry_path e <> PATHS.GAIA_COMMIT) (zip_entries f) ->
     readFileFromZip (zip_entries f) PATHS.GAIA_COMMIT
       = Rejected (ErrorObj "Zip file not found") /\
     getGaiaRevision E u w = (Pending, w1) /\
     _gaiaRevision w1 = _gaiaRevision w) /\
  (forall tempDir w1 f before e after,
     pullApplicationZip E u w = (Fulfilled tempDir, w1) ->
     local_fs w1 !! Js.join tempDir PATHS.APPLICATION_ZIP = Some f ->
     zip_entries f = before ++ e :: after ->
     Forall (fun x => entry_path x <> PATHS.GAIA_COMMIT) before ->
     entry_path e = PATHS.GAIA_COMMIT ->
     entry_data e = [] ->
     getGaiaRevision E u w = (Pending, w1) /\
     _gaiaRevision w1 = _gaiaRevision w).
Proof.
  intros Hcold.
  assert (forall p w1, pullApplicationZip E u w = (p, w1) ->
                       _gaiaRevision w1 = _gaiaRevision w) as Hframe.
  { intros p w1 H. pose proof (pullApplicationZip_frame E u w) as Hf.
    rewrite H in Hf. apply Hf. }
  split; [|split].
  - intros e1 w1 e2 w2 H1 H2.
    pose proof (pullApplicationZip_second _ _ _ _ _ _ _ H1 H2) as Hzip.
    split; [|by eapply Hframe].
    unfold getGaiaRevision. rewrite Hcold. unfold bind. by rewrite Hzip.
  - intros tempDir w1 f Hzip Hfile Hnone.
    assert (readFileFromZip (zip_entries f) PATHS.GAIA_COMMIT
            = Rejected (ErrorObj "Zip file not found")) as Hextract.
    { by apply extract_missing. }
    split; [done|]. split; [|by eapply Hframe].
    unfold getGaiaRevision. rewrite Hcold. unfold bind. rewrite Hzip.
    cbn [then1 then_]. unfold readGaiaCommit, reading. rewrite Hfile.
    unfold readGaiaCommit_from. by rewrite Hextract.
  - intros tempDir w1 f before e after Hzip Hfile Hentries Hbefore Hpath Hdata.
    split; [|by eapply Hframe].
    unfold getGaiaRevision. rewrite Hcold. unfold bind. rewrite Hzip.
    cbn [then1 then_]. unfold readGaiaCommit, reading. rewrite Hfile.
    unfold readGaiaCommit_from.
    rewrite Hentries, (extract_first before after e _ Hbefore Hpath), Hdata.
    by rewrite commit_no_data.
Qed.

Lemma C1_gaia_failures_witness :
  getGaiaRevision Device.unmarked_archive Device.u initial =
    (Pending, snd (pullApplicationZip Device.unmarked_archive Device.u initial)) /\
  fst (getGaiaRevision Device.empty Device.u initial) =
    Rejected (ErrorObj "remote object does not exist") /\
  fst (getGaiaRevision Device.empty_marker Device.u initial) = Pending.
Proof.
  split; [|split].
  - refine (proj1 (proj2 (proj1 (proj2
      (C1_gaia_failures Device.unmarked_archive Device.u initial eq_refl))
      "/tmp/raptor-temp0"
      (snd (pullApplicationZip Device.unmarked_archive Device.u initial))
      (Device.archive [Entry "manifest.webapp" ["{}"]])
      eq_refl eq_refl _))).
    repeat constructor. simpl. discriminate.
  - pose proof (proj1 (proj1
      (C1_gaia_failures Device.empty Device.u initial eq_refl)
      (ErrorObj "remote object does not exist")
      (snd (pullToTemp Device.empty Device.u
              PATHS.B2G_SETTINGS PATHS.APPLICATION_ZIP initial))
      (ErrorObj "remote object does not exist")
      (snd (pullApplicationZip Device.empty Device.u initial))
      eq_refl eq_refl)) as H.
    rewrite H. reflexivity.
  - pose proof (proj1 (proj2 (proj2
      (C1_gaia_failures Device.empty_marker Device.u initial eq_refl))
      "/tmp/raptor-temp0"
      (snd (pullApplicationZip Device.empty_marker Device.u initial))
      (Device.archive [Entry "resources/gaia_commit.txt" []]) []
      (Entry "resources/gaia_commit.txt" []) []
      eq_refl eq_refl eq_refl (List.Forall_nil _) eq_refl eq_refl)) as H.
    rewrite H. reflexivity.
Defined.

(** ** The Gecko resolution *)

Section Gecko.

Variable E : env.
Variable u : Util.

(** What a cold resolution does once the first step has fallen through. *)
Lemma gecko_fallen_through (w w1 : world) :
  Js.truthy (_geckoRevision w) = false ->
  falls_through E u w w1 ->
  getGeckoRevision E u w =
    (let* promise := pullFromIni E u in
     let* _ := on_success promise set_geckoRevision in
     ret promise) w1.
Proof.
  intros Hcold Hfall. unfold getGeckoRevision. rewrite Hcold.
  destruct Hfall as [[err Hpull] | (tempDir & f & err & Hpull & Hfile & Hscan)].
  - unfold bind at 1 2 3. by rewrite Hpull.
  - unfold bind at 1 2 3. rewrite Hpull. cbn [then_].
    unfold bind at 1, reading. by rewrite Hfile, Hscan.
Qed.

Lemma gecko_from_manifest (w w1 : world) (tempDir : string) (f : file)
    (sha : Js.value) :
  Js.truthy (_geckoRevision w) = false ->
  pullToTemp E u PATHS.SYSTEM PATHS.SOURCES_XML w = (Fulfilled tempDir, w1) ->
  local_fs w1 !! Js.join tempDir PATHS.SOURCES_XML = Some f ->
  getGeckoRevisionFromXml (Js.join tempDir PATHS.SOURCES_XML)
    (xml_opentags f) = Fulfilled sha ->
  getGeckoRevision E u w = (Fulfilled sha, with_gecko sha w1).
Proof.
  intros Hcold Hpull Hfile Hscan. unfold getGeckoRevision. rewrite Hcold.
  unfold bind at 1 2 3. rewrite Hpull. cbn [then_].
  unfold bind at 1, reading. by rewrite Hfile, Hscan.
Qed.

Lemma pullFromIni_log (w : world) :
  let w' := snd (pullFromIni E u w) in
  retrievals w' =
    retrievals w ++ [(PATHS.SYSTEM_B2G, PATHS.APPLICATION_INI)] \/
  retrievals w' =
    retrievals w ++ [(PATHS.SYSTEM_B2G, PATHS.APPLICATION_INI);
                     (PATHS.SYSTEM_B2G, PATHS.PLATFORM_INI)].
Proof. cbn zeta. rewrite pullFromIni_frame. apply pullB2GIni_frame. Qed.

Lemma pullFromIni_cache (w : world) :
  _geckoRevision (snd (pullFromIni E u w)) = _geckoRevision w /\
  _gaiaRevision (snd (pullFromIni E u w)) = _gaiaRevision w.
Proof.
  rewrite pullFromIni_frame.
  pose proof (pullB2GIni_frame E u w) as H. cbn zeta in H. tauto.
Qed.

(** The log of a cold resolution: the manifest first, then at most the
    two descriptors. *)
Lemma gecko_log (w : world) :
  Js.truthy (_geckoRevision w) = false ->
  exists later,
    retrievals (snd (getGeckoRevision E u w)) =
      retrievals w ++ (PATHS.SYSTEM, PATHS.SOURCES_XML) :: later /\
    (later = [] \/
     later = [(PATHS.SYSTEM_B2G, PATHS.APPLICATION_INI)] \/
     later = [(PATHS.SYSTEM_B2G, PATHS.APPLICATION_INI);
              (PATHS.SYSTEM_B2G, PATHS.PLATFORM_INI)]).
Proof.
  intros Hcold.
  assert (forall w1,
    retrievals w1 = retrievals w ++ [(PATHS.SYSTEM, PATHS.SOURCES_XML)] ->
    exists later,
      retrievals
        (snd ((let* promise := pullFromIni E u in
               let* _ := on_success promise set_geckoRevision in
               ret promise) w1)) =
        retrievals w ++ (PATHS.SYSTEM, PATHS.SOURCES_XML) :: later /\
      (later = [] \/
       later = [(PATHS.SYSTEM_B2G, PATHS.APPLICATION_INI)] \/
       later = [(PATHS.SYSTEM_B2G, PATHS.APPLICATION_INI);
                (PATHS.SYSTEM_B2G, PATHS.PLATFORM_INI)])) as Hini.
  { intros w1 Hw1. unfold bind.
    pose proof (pullFromIni_log w1) as Hlog. cbn zeta in Hlog.
    destruct (pullFromIni E u w1) as [q w2]. cbn [snd] in Hlog.
    assert (retrievals (snd (let (_, w') := on_success q set_geckoRevision w2
                             in ret q w')) = retrievals w2) as ->.
    { by destruct q. }
    rewrite Hw1, <- !app_assoc in Hlog. cbn [app] in Hlog.
    destruct Hlog as [-> | ->]; eexists; split; eauto. }
  pose proof (pullToTemp_frame E u PATHS.SYSTEM PATHS.SOURCES_XML w) as Hf.
  cbn zeta in Hf. destruct Hf as (Hlog & _ & _ & Hsettled).
  destruct (pullToTemp E u PATHS.SYSTEM PATHS.SOURCES_XML w)
    as [p w1] eqn:Hpull.
  cbn [fst snd] in Hlog, Hsettled.
  destruct p as [|tempDir|err]; [done | |].
  - destruct (local_fs w1 !! Js.join tempDir PATHS.SOURCES_XML)
      as [f|] eqn:Hfile.
    + destruct (getGeckoRevisionFromXml (Js.join tempDir PATHS.SOURCES_XML)
                  (xml_opentags f)) as [|sha|err] eqn:Hscan.
      * exists []. split; [|by left].
        unfold getGeckoRevision. rewrite Hcold.
        unfold bind at 1 2 3. rewrite Hpull. cbn [then_].
        unfold bind at 1, reading. by rewrite Hfile, Hscan.
      * exists []. split; [|by left].
        by rewrite (gecko_from_manifest _ _ _ _ _ Hcold Hpull Hfile Hscan).
      * rewrite (gecko_fallen_through w w1 Hcold).
        -- by apply Hini.
        -- right. by exists tempDir, f, err.
    + exists []. split; [|by left].
      unfold getGeckoRevision. rewrite Hcold.
      unfold bind at 1 2 3. rewrite Hpull. cbn [then_].
      unfold bind at 1, reading. by rewrite Hfile.
  - rewrite (gecko_fallen_through w w1 Hcold).
    + by apply Hini.
    + left. by exists err.
Qed.

End Gecko.

Lemma pullB2GIni_platform (E : env) (u : Util) (w w1 w2 : world)
    (err : reason) (tempDir : string) :
  globals E !! "tempDir" = None ->
  pullToTemp E u PATHS.SYSTEM_B2G PATHS.APPLICATION_INI w = (Rejected err, w1) ->
  pullToTemp E u PATHS.SYSTEM_B2G PATHS.PLATFORM_INI w1
    = (Fulfilled tempDir, w2) ->
  pullB2GIni E u w = (Pending, w2).
Proof.
  intros Hglobal Happ Hplat. unfold pullB2GIni, bind. rewrite Happ.
  cbn [then_]. unfold bind. rewrite Hplat. cbn [then_].
  unfold read_tempDir. by rewrite Hglobal.
Qed.

Lemma pullToTemp_gecko (E : env) (u : Util) (remotePath file : string)
    (w w1 : world) (p : promise string) :
  pullToTemp E u remotePath file w = (p, w1) ->
  _geckoRevision w1 = _geckoRevision w.
Proof.
  intros H. pose proof (pullToTemp_frame E u remotePath file w) as Hframe.
  rewrite H in Hframe. apply Hframe.
Qed.

Lemma falls_through_gecko (E : env) (u : Util) (w w1 : world) :
  falls_through E u w w1 -> _geckoRevision w1 = _geckoRevision w.
Proof.
  intros [[e H] | (tempDir & f & e & H & _)]; by eapply pullToTemp_gecko.
Qed.

(** C5, evaluated on the code, step by step, for a Gecko resolution that
    starts with no cached revision.
    - The retrieval of [sources.xml] comes first, and no later retrieval
      of the resolution asks for it again.
    - When it succeeds, the XML scan runs on the retrieved file; a
      revision found there ends the resolution and is written to the
      cache field, and no descriptor is asked for.
    - When the retrieval or the scan is rejected and [application.ini] is
      retrieved, the outcome is that of the INI scan of that file; a
      revision found is written to the cache field.
    - When both descriptors fail to be retrieved as well, the resolution
      is rejected with the last error and the cache field keeps its
      value.
    - When [application.ini] fails and [platform.ini] is retrieved, with
      no [tempDir] on the global object: the file is on the local disk,
      but the INI scan is not run on it and the resolution neither
      resolves nor fails, its promise stays pending for ever. *)
Theorem C5_gecko_state_machine (E : env) (u : Util) (w : world) :
  Js.truthy (_geckoRevision w) = false ->
  (exists later,
     retrievals (snd (getGeckoRevision E u w)) =
       retrievals w ++ (PATHS.SYSTEM, PATHS.SOURCES_XML) :: later /\
     ~ In (PATHS.SYSTEM, PATHS.SOURCES_XML) later) /\
  (forall tempDir w1 f sha,
     pullToTemp E u PATHS.SYSTEM PATHS.SOURCES_XML w = (Fulfilled tempDir, w1) ->
     local_fs w1 !! Js.join tempDir PATHS.SOURCES_XML = Some f ->
     getGeckoRevisionFromXml (Js.join tempDir PATHS.SOURCES_XML)
       (xml_opentags f) = Fulfilled sha ->
     getGeckoRevision E u w =
       (Fulfilled sha,
        World (mkdirs w1) (local_fs w1) (retrievals w1) (adb_pulls w1)
              sha (_gaiaRevision w1)) /\
     retrievals w1 = retrievals w ++ [(PATHS.SYSTEM, PATHS.SOURCES_XML)]) /\
  (forall w1,
     falls_through E u w w1 ->
     (forall iniDir w2 f,
        pullToTemp E u PATHS.SYSTEM_B2G PATHS.APPLICATION_INI w1
          = (Fulfilled iniDir, w2) ->
        local_fs w2 !! Js.join iniDir PATHS.APPLICATION_INI = Some f ->
        getGeckoRevision E u w =
          match getGeckoRevisionFromIni
                  (Js.join iniDir PATHS.APPLICATION_INI) (read_chunks f) with
          | Fulfilled sha =>
              (Fulfilled sha,
               World (mkdirs w2) (local_fs w2) (retrievals w2) (adb_pulls w2)
                     sha (_gaiaRevision w2))
          | Rejected err => (Rejected err, w2)
          | Pending => (Pending, w2)
          end) /\
     (forall e1 w2 e2 w3,
        pullToTemp E u PATHS.SYSTEM_B2G PATHS.APPLICATION_INI w1
          = (Rejected e1, w2) ->
        pullToTemp E u PATHS.SYSTEM_B2G PATHS.PLATFORM_INI w2
          = (Rejected e2, w3) ->
        getGeckoRevision E u w = (Rejected e2, w3) /\
        _geckoRevision w3 = _geckoRevision w) /\
     (forall e1 w2 iniDir w3,
        globals E !! "tempDir" = None ->
        pullToTemp E u PATHS.SYSTEM_B2G PATHS.APPLICATION_INI w1
          = (Rejected e1, w2) ->
        pullToTemp E u PATHS.SYSTEM_B2G PATHS.PLATFORM_INI w2
          = (Fulfilled iniDir, w3) ->
        is_Some (local_fs w3 !! Js.join iniDir PATHS.PLATFORM_INI) /\
        getGeckoRevision E u w = (Pending, w3) /\
        _geckoRevision w3 = _geckoRevision w)).
Proof.
  intros Hcold. split; [|split].
  - destruct (gecko_log E u w Hcold) as (later & Hlog & Hlater).
    exists later. split; [done|].
    destruct Hlater as [-> | [-> | ->]]; cbn [In];
      intros H; repeat destruct H as [H|H]; try discriminate H; done.
  - intros tempDir w1 f sha Hpull Hfile Hscan.
    split; [by rewrite (gecko_from_manifest E u w w1 _ _ _ Hcold Hpull
                          Hfile Hscan)|].
    by apply (pullToTemp_logged _ _ _ _ _ _ _ Hpull).
  - intros w1 Hfall. rewrite (gecko_fallen_through E u w w1 Hcold Hfall).
    pose proof (falls_through_gecko E u w w1 Hfall) as Hgecko1.
    split; [|split].
    + intros iniDir w2 f Happ Hfile. unfold bind.
      rewrite (pullFromIni_fulfilled E u w1 w2 _ f
                 (pullB2GIni_first E u w1 w2 _ Happ) Hfile).
      by destruct (getGeckoRevisionFromIni _ _).
    + intros e1 w2 e2 w3 Happ Hplat. unfold bind.
      rewrite (pullFromIni_rejected E u w1 w3 e2
                 (pullB2GIni_both_fail E u w1 w2 w3 e1 e2 Happ Hplat)).
      split; [done|].
      by rewrite (pullToTemp_gecko _ _ _ _ _ _ _ Hplat),
                 (pullToTemp_gecko _ _ _ _ _ _ _ Happ).
    + intros e1 w2 iniDir w3 Hglobal Happ Hplat. split; [|split].
      * by destruct (pullToTemp_fulfilled _ _ _ _ _ _ _ Hplat).
      * unfold bind.
        by rewrite (pullFromIni_pending E u w1 w3
                      (pullB2GIni_platform E u w1 w2 w3 e1 iniDir
                         Hglobal Happ Hplat)).
      * by rewrite (pullToTemp_gecko _ _ _ _ _ _ _ Hplat),
                   (pullToTemp_gecko _ _ _ _ _ _ _ Happ).
Qed.

(** Three devices. One holds only [platform.ini], with a stamp in it: the
    resolution stays pending. One holds the manifest: the revision comes
    from the XML scan. One holds only [application.ini]: the revision
    comes from the INI scan. *)
Lemma C5_gecko_state_machine_witness :
  fst (getGeckoRevision Device.platform_only Device.u initial) = Pending /\
  fst (getGeckoRevision Device.complete Device.u initial)
    = Fulfilled (Js.Str "abc123") /\
  fst (getGeckoRevision Device.descriptor_only Device.u initial)
    = Fulfilled (Js.Str "cafef00d").
Proof.
  split; [|split].
  - destruct (C5_gecko_state_machine Device.platform_only Device.u initial
                eq_refl) as (_ & _ & Hfall).
    destruct (Hfall
      (snd (pullToTemp Device.platform_only Device.u
              PATHS.SYSTEM PATHS.SOURCES_XML initial))) as (_ & _ & Hplat).
    { left. by exists (ErrorObj "remote object does not exist"). }
    destruct (Hplat (ErrorObj "remote object does not exist")
      (snd (pullToTemp Device.platform_only Device.u
              PATHS.SYSTEM_B2G PATHS.APPLICATION_INI
              (snd (pullToTemp Device.platform_only Device.u
                      PATHS.SYSTEM PATHS.SOURCES_XML initial))))
      "/tmp/raptor-temp2"
      (snd (getGeckoRevision Device.platform_only Device.u initial))
      eq_refl eq_refl eq_refl) as (_ & H & _).
    by rewrite H.
  - destruct (C5_gecko_state_machine Device.complete Device.u initial
                eq_refl) as (_ & Hxml & _).
    destruct (Hxml "/tmp/raptor-temp0"
      (snd (pullToTemp Device.complete Device.u
              PATHS.SYSTEM PATHS.SOURCES_XML initial))
      (Device.document Sample.manifest) (Js.Str "abc123")
      eq_refl eq_refl eq_refl) as [H _].
    by rewrite H.
  - destruct (C5_gecko_state_machine Device.descriptor_only Device.u initial
                eq_refl) as (_ & _ & Hfall).
    destruct (Hfall
      (snd (pullToTemp Device.descriptor_only Device.u
              PATHS.SYSTEM PATHS.SOURCES_XML initial))) as (Hini & _).
    { left. by exists (ErrorObj "remote object does not exist"). }
    by rewrite (Hini "/tmp/raptor-temp1"
      (snd (pullToTemp Device.descriptor_only Device.u
              PATHS.SYSTEM_B2G PATHS.APPLICATION_INI
              (snd (pullToTemp Device.descriptor_only Device.u
                      PATHS.SYSTEM PATHS.SOURCES_XML initial))))
      (Device.text ["SourceStamp=cafef00d" +:+ newline])
      eq_refl eq_refl).
Defined.

(** ** The cache *)

Section Cache.

Variable E : env.
Variable u : Util.

Lemma gecko_keeps_gaia (w : world) :
  _gaiaRevision (snd (getGeckoRevision E u w)) = _gaiaRevision w.
Proof.
  unfold getGeckoRevision.
  destruct (Js.truthy (_geckoRevision w)); [done|].
  assert (forall w1, _gaiaRevision w1 = _gaiaRevision w ->
    _gaiaRevision
      (snd ((let* promise := pullFromIni E u in
             let* _ := on_success promise set_geckoRevision in
             ret promise) w1)) = _gaiaRevision w) as Hini.
  { intros w1 Hw1. unfold bind.
    destruct (pullFromIni_cache E u w1) as [_ Hgaia].
    destruct (pullFromIni E u w1) as [q w2]. cbn [snd] in Hgaia.
    destruct q; cbn; congruence. }
  pose proof (pullToTemp_frame E u PATHS.SYSTEM PATHS.SOURCES_XML w) as Hf.
  cbn zeta in Hf. destruct Hf as (_ & _ & Hgaia & _).
  unfold bind at 1 2 3.
  destruct (pullToTemp E u PATHS.SYSTEM PATHS.SOURCES_XML w) as [p w1].
  cbn [snd] in Hgaia.
  destruct p as [|tempDir|err]; cbn [then_]; [done | | by apply Hini].
  unfold bind at 1, reading.
  destruct (local_fs w1 !! Js.join tempDir PATHS.SOURCES_XML) as [f|];
    [|done].
  destruct (getGeckoRevisionFromXml _ _); cbn [then_];
    [done | done | by apply Hini].
Qed.

Lemma gaia_keeps_gecko (w : world) :
  _geckoRevision (snd (getGaiaRevision E u w)) = _geckoRevision w.
Proof.
  unfold getGaiaRevision.
  destruct (Js.truthy (_gaiaRevision w)); [done|].
  unfold bind at 1 2 3.
  destruct (pullApplicationZip_frame E u w) as [Hgecko _].
  destruct (pullApplicationZip E u w) as [p w1]. cbn [snd] in Hgecko.
  destruct p as [|tempDir|err]; cbn [then1 then_]; [done | | done].
  unfold readGaiaCommit, reading.
  destruct (local_fs w1 !! _) as [f|]; [|done].
  by destruct (readGaiaCommit_from _ _).
Qed.

(** A request served from the cache changes nothing. *)
Lemma request_hot (k : kind) (w : world) :
  Js.truthy (cache k w) = true ->
  request E k u w = (Fulfilled (cache k w), w).
Proof.
  destruct k; cbn [cache request]; intros Hhot.
  - unfold getGeckoRevision. by rewrite Hhot.
  - unfold getGaiaRevision. by rewrite Hhot.
Qed.

Lemma request_keeps_hot (k k' : kind) (w : world) :
  Js.truthy (cache k w) = true ->
  cache k (snd (request E k' u w)) = cache k w.
Proof.
  intros Hhot. destruct k, k'; cbn [cache request] in *.
  - pose proof (request_hot Gecko w Hhot) as H. cbn in H. by rewrite H.
  - apply gaia_keeps_gecko.
  - apply gecko_keeps_gaia.
  - pose proof (request_hot Gaia w Hhot) as H. cbn in H. by rewrite H.
Qed.

Lemma stored_on_success {A} (m : M (promise A)) (store : A -> M unit)
    (w w' : world) (sha : A) :
  (let* promise := m in
   let* _ := on_success promise store in
   ret promise) w = (Fulfilled sha, w') ->
  exists w1, m w = (Fulfilled sha, w1) /\ w' = snd (store sha w1).
Proof.
  unfold bind. destruct (m w) as [p w1].
  destruct p as [|v|e]; cbn [on_success ret]; [done | | done].
  destruct (store v w1) as [[] w2] eqn:Hstore. intros [= -> <-].
  exists w1. by rewrite Hstore.
Qed.

(** A successful resolution writes its revision to the cache field. *)
Lemma request_populates (k : kind) (w w' : world) (sha : Js.value) :
  Js.truthy (cache k w) = false ->
  request E k u w = (Fulfilled sha, w') ->
  cache k w' = sha.
Proof.
  destruct k; cbn [cache request]; intros Hcold.
  - unfold getGeckoRevision. rewrite Hcold. unfold bind at 1.
    destruct (pullToTemp E u _ _ w) as [pulled w0].
    intros (w1 & _ & ->)%stored_on_success. reflexivity.
  - unfold getGaiaRevision. rewrite Hcold. unfold bind at 1.
    destruct (pullApplicationZip E u w) as [pulled w0].
    intros (w1 & _ & ->)%stored_on_success. reflexivity.
Qed.

End Cache.

Lemma serve_keeps_hot (E : env) (k : kind) (reqs : list (kind * Util)) :
  forall w,
    Js.truthy (cache k w) = true ->
    cache k (snd (serve E reqs w)) = cache k w /\
    (forall i u, reqs !! i = Some (k, u) ->
       fst (serve E reqs w) !! i = Some (Fulfilled (cache k w))).
Proof.
  induction reqs as [|[k' u'] reqs IH]; intros w Hhot.
  - split; [done|]. by intros i u.
  - cbn [serve]. unfold bind.
    pose proof (request_keeps_hot E u' k k' w Hhot) as Hkeep.
    destruct (request E k' u' w) as [p w1] eqn:Hreq. cbn [snd] in Hkeep.
    assert (Js.truthy (cache k w1) = true) as Hhot1 by by rewrite Hkeep.
    destruct (IH w1 Hhot1) as [Hcache Hresults].
    destruct (serve E reqs w1) as [ps w2]. cbn [fst snd ret] in *.
    split; [congruence|].
    intros [|i] u0 Hi; cbn in Hi |- *.
    + injection Hi as -> ->.
      rewrite (request_hot E u0 k w Hhot) in Hreq. congruence.
    + rewrite <- Hkeep. by apply (Hresults i u0).
Qed.

(** C4, as the claim has it, fails for the empty revision string. The
    first resolution succeeds with the empty stamp of [application.ini] and
    writes it to the cache field; the next request is not served from the
    cache: it retrieves the manifest and the descriptor again. *)
Lemma C4_cache_counterexample :
  let first := getGeckoRevision Device.blank_stamp Device.u initial in
  let second := getGeckoRevision Device.blank_stamp Device.u (snd first) in
  (fst first = Fulfilled (Js.Str "") /\
   _geckoRevision (snd first) = Js.Str "" /\
   adb_pulls (snd first) =
     [("0123456789ABCDEF", "/system/sources.xml",
       "/tmp/raptor-temp0/sources.xml");
      ("0123456789ABCDEF", "/system/b2g/application.ini",
       "/tmp/raptor-temp1/application.ini")]) /\
  adb_pulls (snd second) =
    adb_pulls (snd first) ++
    [("0123456789ABCDEF", "/system/sources.xml",
      "/tmp/raptor-temp2/sources.xml");
     ("0123456789ABCDEF", "/system/b2g/application.ini",
      "/tmp/raptor-temp3/application.ini")].
Proof. vm_compute. repeat split. Qed.

(** C4, amended. For both kinds and every non-empty resolved revision
    string: a successful resolution writes the revision to the cache field
    of its kind, which is shared by all [Util] instances; from then on
    every request for that kind, through any instance and whatever the
    device, returns the cached value and leaves the world as it is, so
    that no retrieval is made; and the field keeps its value through any
    sequence of requests of either kind. *)
Theorem C4_cache (E : env) (k : kind) :
  (forall u w sha w',
     Js.truthy (cache k w) = false ->
     request E k u w = (Fulfilled sha, w') ->
     cache k w' = sha) /\
  (forall w,
     Js.truthy (cache k w) = true ->
     (forall E' u, request E' k u w = (Fulfilled (cache k w), w)) /\
     (forall reqs,
        cache k (snd (serve E reqs w)) = cache k w /\
        (forall i u, reqs !! i = Some (k, u) ->
           fst (serve E reqs w) !! i = Some (Fulfilled (cache k w))))).
Proof.
  split.
  - intros u w sha w'. apply request_populates.
  - intros w Hhot. split.
    + intros E' u. by apply request_hot.
    + intros reqs. by apply serve_keeps_hot.
Qed.

(** After a first resolution on a device that has the manifest, a second
    request is served from the cache, also on a device that has nothing. *)
Lemma C4_cache_witness :
  let w := snd (getGeckoRevision Device.complete Device.u initial) in
  request Device.empty Gecko (MkUtil "another") w =
    (Fulfilled (Js.Str "abc123"), w).
Proof.
  exact (proj1 (proj2 (C4_cache Device.complete Gecko)
    (snd (getGeckoRevision Device.complete Device.u initial)) eq_refl)
    Device.empty (MkUtil "another")).
Defined.

(** ** The scenarios of the specification *)

Example ini_scan_finds_stamp :
  getGeckoRevisionFromIni "application.ini"
    ["FOO=1" +:+ newline +:+ "SourceStamp=deadbeef" +:+ newline +:+
     "BAR=2" +:+ newline]
  = Fulfilled (Js.Str "deadbeef").
Proof. reflexivity. Qed.

Example gecko_from_descriptor :
  fst (getGeckoRevision Device.descriptor_only Device.u initial)
  = Fulfilled (Js.Str "cafef00d").
Proof. vm_compute. reflexivity. Qed.

Example gaia_from_second_location :
  fst (getGaiaRevision Device.archive_in_data Device.u initial)
  = Fulfilled (Js.Str "f00dcafe").
Proof. vm_compute. reflexivity. Qed.

Example second_call_reads_cache :
  let first := getGaiaRevision Device.archive_in_data Device.u initial in
  getGaiaRevision Device.empty Device.u (snd first)
  = (Fulfilled (Js.Str "f00dcafe"), snd first).
Proof. vm_compute. reflexivity. Qed.

(** ** More on retrieval *)

(** [pullToTemp], case by case on what the machine and the device answer. *)
Lemma pullToTemp_cases (E : env) (u : Util) (remotePath file : string)
    (w : world) :
  let tempDir := temp_name (mkdirs w) in
  let remote := Js.join remotePath file in
  let local := Js.join tempDir file in
  let log := adb_pulls w ++ [(serial u, remote, local)] in
  pullToTemp E u remotePath file w =
  match temp_mkdir E (mkdirs w) with
  | Some err =>
      (Rejected err, retrieved remotePath file w (local_fs w) (adb_pulls w))
  | None =>
      match adb_pull E (length (adb_pulls w)) (serial u) remote with
      | PullFailed e =>
          (Rejected e, retrieved remotePath file w (local_fs w) log)
      | PullDone None =>
          (match local_fs w !! local with
           | Some _ => Fulfilled tempDir
           | None => Rejected (ErrorObj "Failed to pull remote file")
           end,
           retrieved remotePath file w (local_fs w) log)
      | PullDone (Some f) =>
          (Fulfilled tempDir,
           retrieved remotePath file w (<[local := f]> (local_fs w)) log)
      end
  end.
Proof.
  cbn zeta.
  unfold pullToTemp, bind, note_retrieval, mkdir, pull, exists_, then_, ret,
    retrieved.
  cbn [fst snd mkdirs local_fs retrievals adb_pulls
       _geckoRevision _gaiaRevision].
  destruct (temp_mkdir E (mkdirs w)); [done|].
  destruct (adb_pull E _ _ _) as [e|[f|]];
    cbn [fst snd mkdirs local_fs retrievals adb_pulls
         _geckoRevision _gaiaRevision]; [done | |].
  - rewrite lookup_insert_eq.
    by rewrite (bool_decide_eq_true_2 _ (mk_is_Some _ _ eq_refl)).
  - destruct (local_fs w !! _) as [f|] eqn:Hf.
    + by rewrite (bool_decide_eq_true_2 _ (mk_is_Some _ _ eq_refl)).
    + rewrite bool_decide_eq_false_2; [done|]. by intros [? ?].
Qed.







(** X4. The cost of a retrieval, whatever its outcome: one call of
    [temp.mkdir] and one entry in the log of retrievals; no [adb pull]
    when [temp.mkdir] fails and exactly one otherwise, made with the
    serial of the instance from [path.join(remotePath, file)] to
    [path.join(tempDir, file)]; the cache fields are not touched. *)
Theorem X4_pullToTemp_cost (E : env) (u : Util) (remotePath file : string)
    (w : world) :
  let result := pullToTemp E u remotePath file w in
  mkdirs (snd result) = S (mkdirs w) /\
  retrievals (snd result) = retrievals w ++ [(remotePath, file)] /\
  adb_pulls (snd result) =
    match temp_mkdir E (mkdirs w) with
    | Some _ => adb_pulls w
    | None =>
        adb_pulls w ++ [(serial u, Js.join remotePath file,
                         Js.join (temp_name (mkdirs w)) file)]
    end /\
  _geckoRevision (snd result) = _geckoRevision w /\
  _gaiaRevision (snd result) = _gaiaRevision w.
Proof.
  cbn zeta. rewrite pullToTemp_cases. cbn zeta.
  destruct (temp_mkdir E (mkdirs w)); [done|].
  by destruct (adb_pull E _ _ _) as [e|[f|]].
Qed.

(** ** More on the Gaia resolution *)

Lemma split_head (c : Ascii.ascii) (s : string) :
  exists l,
    Js.split c s !! 0 = Some l /\
    free_of c l = true /\
    (s = l \/ exists rest, s = l +:+ String c rest).
Proof.
  induction s as [|x s (l & Hl & Hfree & Hshape)].
  - exists ""%string. split; [done|]. split; [done|]. by left.
  - simpl. destruct (Ascii.eqb x c) eqn:Hx.
    + apply Ascii.eqb_eq in Hx as ->. exists ""%string.
      split; [done|]. split; [done|]. right. by exists s.
    + destruct (Js.split c s) as [|piece pieces]; [done|].
      injection Hl as ->. exists (String x l). split; [done|]. split.
      * simpl. by rewrite Hx, Hfree.
      * destruct Hshape as [-> | [rest ->]]; [by left|].
        right. exists rest. by rewrite string_app_cons.
Qed.

Lemma commit_fold_deaf (zipFile : string) (events : list stream_event)
    (st : Commit.scan) :
  Commit.listening st = false ->
  Forall (fun ev => ev <> Close) events ->
  fold_left (Commit.on_event zipFile) events st = st.
Proof.
  intros Hdeaf Hopen. induction Hopen as [|ev events Hev _ IH]; [done|].
  cbn [fold_left].
  assert (Commit.on_event zipFile st ev = st) as ->; [|done].
  destruct ev as [chunk| |]; cbn [Commit.on_event]; [|done|done].
  unfold Commit.on_data. by rewrite Hdeaf.
Qed.

Lemma entry_stream_open (data : list string) :
  Forall (fun ev => ev <> Close) (entry_stream data).
Proof.
  unfold entry_stream. apply Forall_app. split.
  - induction data; by constructor.
  - by repeat constructor.
Qed.

Lemma commit_first_chunk (zipFile c : string) (rest : list string) :
  Commit.result (Commit.run zipFile (c :: rest)) =
  Fulfilled (Commit.first_line c).
Proof.
  unfold Commit.run, Commit.handle.
  change (entry_stream (c :: rest)) with (Data c :: entry_stream rest).
  cbn [fold_left].
  change (Commit.on_event zipFile Commit.start (Data c))
    with (Commit.Scan (Commit.first_line c)
            (Fulfilled (Commit.first_line c)) false).
  by rewrite commit_fold_deaf by (done || apply entry_stream_open).
Qed.

(** X5. The commit is the first line of the first chunk of the entry.
    Once a chunk has arrived the promise is fulfilled with the text of
    that chunk up to its first newline (all of it when it has none); the
    value is a string without newline, possibly empty, and the chunks that
    follow play no part. *)
Theorem X5_commit_first_line (zipFile c : string) (rest : list string) :
  exists line,
    Commit.result (Commit.run zipFile (c :: rest)) = Fulfilled (Js.Str line) /\
    free_of "010" line = true /\
    (c = line \/ exists tail, c = line +:+ newline +:+ tail).
Proof.
  destruct (split_head "010" c) as (line & Hline & Hfree & Hshape).
  exists line. split; [|split; [done|]].
  - rewrite commit_first_chunk. unfold Commit.first_line. by rewrite Hline.
  - destruct Hshape as [-> | [tail ->]]; [by left|]. right. by exists tail.
Qed.

Section GaiaSuccess.

Variable E : env.
Variable u : Util.

Lemma gaia_cold (w w1 : world) (tempDir : string) (f : file) :
  Js.truthy (_gaiaRevision w) = false ->
  pullApplicationZip E u w = (Fulfilled tempDir, w1) ->
  local_fs w1 !! Js.join tempDir PATHS.APPLICATION_ZIP = Some f ->
  getGaiaRevision E u w =
    (let* promise :=
       ret (readGaiaCommit_from (Js.join tempDir PATHS.APPLICATION_ZIP)
              (zip_entries f)) in
     let* _ := on_success promise set_gaiaRevision in
     ret promise) w1.
Proof.
  intros Hcold Hzip Hfile. unfold getGaiaRevision. rewrite Hcold.
  unfold bind at 1. rewrite Hzip. cbn [then1 then_].
  unfold bind at 1 3, readGaiaCommit, reading, ret. by rewrite Hfile.
Qed.

End GaiaSuccess.

(** X6. A Gaia resolution that succeeds. With no cached revision, once the
    archive is retrieved and its first entry named
    [resources/gaia_commit.txt] delivers a chunk, the resolution is
    fulfilled with the first line of that chunk and the same value is
    written to the Gaia cache field; nothing else of the world changes
    after the retrieval. *)
Theorem X6_gaia_success (E : env) (u : Util) (w w1 : world)
    (tempDir c : string) (f : file) (before after : list entry) (e : entry)
    (rest : list string) :
  Js.truthy (_gaiaRevision w) = false ->
  pullApplicationZip E u w = (Fulfilled tempDir, w1) ->
  local_fs w1 !! Js.join tempDir PATHS.APPLICATION_ZIP = Some f ->
  zip_entries f = before ++ e :: after ->
  Forall (fun x => entry_path x <> PATHS.GAIA_COMMIT) before ->
  entry_path e = PATHS.GAIA_COMMIT ->
  entry_data e = c :: rest ->
  getGaiaRevision E u w =
    (Fulfilled (Commit.first_line c),
     World (mkdirs w1) (local_fs w1) (retrievals w1) (adb_pulls w1)
           (_geckoRevision w1) (Commit.first_line c)).
Proof.
  intros Hcold Hzip Hfile Hentries Hbefore Hpath Hdata.
  rewrite (gaia_cold E u w w1 tempDir f Hcold Hzip Hfile).
  unfold readGaiaCommit_from.
  rewrite Hentries, (extract_first before after e _ Hbefore Hpath), Hdata.
  by rewrite commit_first_chunk.
Qed.

Lemma X6_gaia_success_witness :
  fst (getGaiaRevision Device.complete Device.u initial)
  = Fulfilled (Js.Str "f00dcafe").
Proof.
  pose proof (X6_gaia_success Device.complete Device.u initial
    (snd (pullApplicationZip Device.complete Device.u initial))
    "/tmp/raptor-temp0" ("f00dcafe" +:+ newline +:+ "1431000000")
    (Device.archive
       [Entry "manifest.webapp" ["{}"];
        Entry "resources/gaia_commit.txt"
              ["f00dcafe" +:+ newline +:+ "1431000000"]])
    [Entry "manifest.webapp" ["{}"]] []
    (Entry "resources/gaia_commit.txt"
           ["f00dcafe" +:+ newline +:+ "1431000000"])
    [] eq_refl eq_refl eq_refl eq_refl) as H.
  rewrite H.
  - reflexivity.
  - repeat constructor. simpl. discriminate.
  - reflexivity.
  - reflexivity.
Defined.

(** ** From the answers of the device to the revision *)

Section EndToEnd.

Variable E : env.
Variable u : Util.

(** Two retrievals in a row, the first rejected by the device and the
    second copying a file. *)
Lemma second_retrieval (d1 f1 d2 f2 : string) (w : world) (e : reason)
    (f : file) :
  temp_mkdir E (mkdirs w) = None ->
  temp_mkdir E (S (mkdirs w)) = None ->
  adb_pull E (length (adb_pulls w)) (serial u) (Js.join d1 f1)
    = PullFailed e ->
  adb_pull E (S (length (adb_pulls w))) (serial u) (Js.join d2 f2)
    = PullDone (Some f) ->
  exists w1 w2,
    pullToTemp E u d1 f1 w = (Rejected e, w1) /\
    pullToTemp E u d2 f2 w1 = (Fulfilled (temp_name (S (mkdirs w))), w2) /\
    local_fs w2 !! Js.join (temp_name (S (mkdirs w))) f2 = Some f /\
    retrievals w2 = retrievals w ++ [(d1, f1); (d2, f2)] /\
    _geckoRevision w2 = _geckoRevision w /\
    _gaiaRevision w2 = _gaiaRevision w.
Proof.
  intros Hm1 Hm2 Hp1 Hp2.
  eexists _, _. split; [|split].
  - rewrite pullToTemp_cases. cbn zeta. by rewrite Hm1, Hp1.
  - rewrite pullToTemp_cases. cbn zeta. cbn [retrieved mkdirs adb_pulls].
    rewrite length_app, Nat.add_1_r. cbn [length]. by rewrite Hm2, Hp2.
  - cbn [retrieved mkdirs adb_pulls local_fs retrievals
         _geckoRevision _gaiaRevision].
    rewrite lookup_insert_eq, <- app_assoc. done.
Qed.

End EndToEnd.

(** X7. The Gecko revision when the manifest is missing. With no cached
    revision, if the device refuses [/system/sources.xml] and delivers
    [/system/b2g/application.ini], the outcome of the resolution is the
    outcome of the INI scan of the delivered file, a revision found is
    cached, and [platform.ini] is not asked for. *)
Theorem X7_gecko_from_descriptor (E : env) (u : Util) (w : world)
    (e : reason) (f : file) :
  Js.truthy (_geckoRevision w) = false ->
  temp_mkdir E (mkdirs w) = None ->
  temp_mkdir E (S (mkdirs w)) = None ->
  adb_pull E (length (adb_pulls w)) (serial u)
    (Js.join PATHS.SYSTEM PATHS.SOURCES_XML) = PullFailed e ->
  adb_pull E (S (length (adb_pulls w))) (serial u)
    (Js.join PATHS.SYSTEM_B2G PATHS.APPLICATION_INI) = PullDone (Some f) ->
  let iniPath :=
    Js.join (temp_name (S (mkdirs w))) PATHS.APPLICATION_INI in
  let scanned := getGeckoRevisionFromIni iniPath (read_chunks f) in
  let result := getGeckoRevision E u w in
  fst result = scanned /\
  _geckoRevision (snd result) =
    match scanned with
    | Fulfilled sha => sha
    | _ => _geckoRevision w
    end /\
  retrievals (snd result) =
    retrievals w ++ [(PATHS.SYSTEM, PATHS.SOURCES_XML);
                     (PATHS.SYSTEM_B2G, PATHS.APPLICATION_INI)].
Proof.
  intros Hcold Hm1 Hm2 Hp1 Hp2. cbn zeta.
  destruct (second_retrieval E u _ _ _ _ w e f Hm1 Hm2 Hp1 Hp2)
    as (w1 & w2 & H1 & H2 & Hfile & Hlog & Hgecko & _).
  rewrite (gecko_fallen_through E u w w1 Hcold)
    by (left; by exists e).
  unfold bind.
  rewrite (pullFromIni_fulfilled E u w1 w2 _ f
             (pullB2GIni_first E u w1 w2 _ H2) Hfile).
  destruct (getGeckoRevisionFromIni _ _); cbn; by rewrite ?Hlog, ?Hgecko.
Qed.

Lemma X7_gecko_from_descriptor_witness :
  fst (getGeckoRevision Device.descriptor_only Device.u initial)
  = getGeckoRevisionFromIni "/tmp/raptor-temp1/application.ini"
      ["SourceStamp=cafef00d" +:+ newline].
Proof.
  exact (proj1 (X7_gecko_from_descriptor Device.descriptor_only Device.u
    initial (ErrorObj "remote object does not exist")
    (Device.text ["SourceStamp=cafef00d" +:+ newline])
    eq_refl eq_refl eq_refl eq_refl eq_refl)).
Defined.

(** X8. The Gaia revision from the second location. With no cached
    revision, if the device refuses the archive under [/system/b2g] and
    delivers the one under [/data/local], the outcome of the resolution is
    that of reading the commit out of the delivered archive, and a
    revision found is cached. *)
Theorem X8_gaia_from_data_local (E : env) (u : Util) (w : world)
    (e : reason) (f : file) :
  Js.truthy (_gaiaRevision w) = false ->
  temp_mkdir E (mkdirs w) = None ->
  temp_mkdir E (S (mkdirs w)) = None ->
  adb_pull E (length (adb_pulls w)) (serial u)
    (Js.join PATHS.B2G_SETTINGS PATHS.APPLICATION_ZIP) = PullFailed e ->
  adb_pull E (S (length (adb_pulls w))) (serial u)
    (Js.join PATHS.DATA_LOCAL_SETTINGS PATHS.APPLICATION_ZIP)
    = PullDone (Some f) ->
  let zipFile :=
    Js.join (temp_name (S (mkdirs w))) PATHS.APPLICATION_ZIP in
  let commit := readGaiaCommit_from zipFile (zip_entries f) in
  let result := getGaiaRevision E u w in
  fst result = commit /\
  _gaiaRevision (snd result) =
    match commit with
    | Fulfilled sha => sha
    | _ => _gaiaRevision w
    end /\
  retrievals (snd result) =
    retrievals w ++ [(PATHS.B2G_SETTINGS, PATHS.APPLICATION_ZIP);
                     (PATHS.DATA_LOCAL_SETTINGS, PATHS.APPLICATION_ZIP)].
Proof.
  intros Hcold Hm1 Hm2 Hp1 Hp2. cbn zeta.
  destruct (second_retrieval E u _ _ _ _ w e f Hm1 Hm2 Hp1 Hp2)
    as (w1 & w2 & H1 & H2 & Hfile & Hlog & _ & Hgaia).
  rewrite (gaia_cold E u w w2 _ f Hcold
             (pullApplicationZip_second E u w w1 w2 e _ H1 H2) Hfile).
  unfold bind, ret.
  destruct (readGaiaCommit_from _ _); cbn; by rewrite ?Hlog, ?Hgaia.
Qed.

Lemma X8_gaia_from_data_local_witness :
  fst (getGaiaRevision Device.archive_in_data Device.u initial)
  = Fulfilled (Js.Str "f00dcafe").
Proof.
  exact (proj1 (X8_gaia_from_data_local Device.archive_in_data Device.u
    initial (ErrorObj "remote object does not exist")
    (Device.archive
       [Entry "resources/gaia_commit.txt" ["f00dcafe" +:+ newline]])
    eq_refl eq_refl eq_refl eq_refl eq_refl)).
Defined.

(** ** More on the cache *)

Lemma keeps_ret {A} (a : A) : keeps_cache (ret a).
Proof. by intros w. Qed.

Lemma keeps_bind {A B} (m : M A) (k : A -> M B) :
  keeps_cache m -> (forall a, keeps_cache (k a)) -> keeps_cache (bind m k).
Proof.
  intros Hm Hk w. unfold bind. destruct (Hm w) as [H1 H2].
  destruct (m w) as [a w1]. cbn [snd] in H1, H2.
  destruct (Hk a w1) as [H3 H4]. split; congruence.
Qed.

Lemma keeps_then_ {A B} (p : promise A)
    (f : A -> M (promise B)) (g : reason -> M (promise B)) :
  (forall a, keeps_cache (f a)) -> (forall e, keeps_cache (g e)) ->
  keeps_cache (then_ p f g).
Proof. intros Hf Hg. destruct p; cbn [then_]; auto using keeps_ret. Qed.

Lemma keeps_reading {A} (path : string) (k : file -> promise A) :
  keeps_cache (reading path k).
Proof. by intros w. Qed.

Lemma keeps_pullToTemp (E : env) (u : Util) (remotePath file : string) :
  keeps_cache (pullToTemp E u remotePath file).
Proof.
  intros w. pose proof (pullToTemp_frame E u remotePath file w) as H.
  cbn zeta in H. tauto.
Qed.

Lemma keeps_pullFromIni (E : env) (u : Util) : keeps_cache (pullFromIni E u).
Proof. intros w. apply pullFromIni_cache. Qed.

Lemma keeps_promise_of (E : env) (k : kind) (u : Util) :
  keeps_cache (promise_of E k u).
Proof.
  destruct k; cbn [promise_of].
  - apply keeps_bind; [apply keeps_pullToTemp|]. intros pulled.
    apply keeps_then_; [|intros; apply keeps_pullFromIni].
    intros tempDir. apply keeps_bind; [apply keeps_reading|].
    intros scanned. apply keeps_then_; intros;
      [apply keeps_ret | apply keeps_pullFromIni].
  - apply keeps_bind; [intros w; apply pullApplicationZip_frame|].
    intros pulled. apply keeps_then_; intros;
      [apply keeps_reading | apply keeps_ret].
Qed.

(** A request is the cache test, then the promise, then the cache write. *)
Lemma request_unfold (E : env) (k : kind) (u : Util) (w : world) :
  request E k u w =
  if Js.truthy (cache k w) then (Fulfilled (cache k w), w)
  else
    let (p, w1) := promise_of E k u w in
    (p, match p with
        | Fulfilled sha => snd (store k sha w1)
        | _ => w1
        end).
Proof.
  destruct k; cbn [request cache promise_of store].
  - unfold getGeckoRevision, gecko_promise.
    destruct (Js.truthy (_geckoRevision w)); [done|]. unfold bind at 1 5.
    destruct (pullToTemp E u PATHS.SYSTEM PATHS.SOURCES_XML w) as [pulled w0].
    unfold bind at 1.
    destruct (then_ pulled _ _ w0) as [p w1]. unfold bind. by destruct p.
  - unfold getGaiaRevision, gaia_promise.
    destruct (Js.truthy (_gaiaRevision w)); [done|]. unfold bind at 1 4.
    destruct (pullApplicationZip E u w) as [pulled w0].
    unfold bind at 1.
    destruct (then1 pulled _ w0) as [p w1]. unfold bind. by destruct p.
Qed.

(** X9. The cache is written on success only. A request whose promise is
    rejected or never settles leaves both cache fields as they were. *)
Theorem X9_failure_keeps_cache (E : env) (k : kind) (u : Util)
    (w w' : world) (p : promise Js.value) :
  request E k u w = (p, w') ->
  (forall sha, p <> Fulfilled sha) ->
  _geckoRevision w' = _geckoRevision w /\
  _gaiaRevision w' = _gaiaRevision w.
Proof.
  rewrite request_unfold. destruct (Js.truthy (cache k w)).
  - intros [= <- <-]. done.
  - pose proof (keeps_promise_of E k u w) as Hkeeps.
    destruct (promise_of E k u w) as [q w1]. cbn [snd] in Hkeeps.
    intros [= <- <-] Hfailed. destruct q as [|sha|e]; [done | | done].
    by destruct (Hfailed sha).
Qed.

Lemma X9_failure_keeps_cache_witness :
  _geckoRevision (snd (getGeckoRevision Device.empty Device.u initial))
    = Js.Null /\
  _gaiaRevision (snd (getGeckoRevision Device.empty Device.u initial))
    = Js.Null.
Proof.
  refine (X9_failure_keeps_cache Device.empty Gecko Device.u initial
    (snd (getGeckoRevision Device.empty Device.u initial))
    (Rejected (ErrorObj "remote object does not exist")) eq_refl _).
  intros sha. discriminate.
Defined.

(** X10. The two kinds do not interfere: a request for one kind, whatever
    its outcome, leaves the cache field of the other kind as it was. *)
Theorem X10_kinds_independent (E : env) (k k' : kind) (u : Util) (w : world) :
  k <> k' ->
  cache k (snd (request E k' u w)) = cache k w.
Proof.
  intros Hne. rewrite request_unfold. destruct (Js.truthy (cache k' w)); [done|].
  pose proof (keeps_promise_of E k' u w) as [Hgecko Hgaia].
  destruct (promise_of E k' u w) as [q w1]. cbn [snd] in *.
  destruct k, k'; try done; by destruct q.
Qed.

Lemma X10_kinds_independent_witness :
  cache Gecko (snd (request Device.complete Gaia Device.u initial))
  = Js.Null.
Proof.
  refine (X10_kinds_independent Device.complete Gecko Gaia Device.u initial _).
  discriminate.
Defined.

Lemma pullApplicationZip_log (E : env) (u : Util) (w : world) :
  retrievals (snd (pullApplicationZip E u w)) =
    retrievals w ++ [(PATHS.B2G_SETTINGS, PATHS.APPLICATION_ZIP)] \/
  retrievals (snd (pullApplicationZip E u w)) =
    retrievals w ++ [(PATHS.B2G_SETTINGS, PATHS.APPLICATION_ZIP);
                     (PATHS.DATA_LOCAL_SETTINGS, PATHS.APPLICATION_ZIP)].
Proof.
  unfold pullApplicationZip, bind.
  destruct (pullToTemp E u PATHS.B2G_SETTINGS PATHS.APPLICATION_ZIP w)
    as [p1 w1] eqn:H1.
  apply pullToTemp_logged in H1.
  destruct p1 as [|d|e]; cbn [then_ ret snd]; [by left | by left |].
  unfold bind.
  destruct (pullToTemp E u PATHS.DATA_LOCAL_SETTINGS PATHS.APPLICATION_ZIP w1)
    as [p2 w2] eqn:H2.
  apply pullToTemp_logged in H2. right.
  rewrite H1, <- app_assoc in H2. by destruct p2.
Qed.

Lemma promise_log (E : env) (k : kind) (u : Util) (w : world) :
  exists first later rest,
    retrievals (snd (promise_of E k u w)) = retrievals w ++ first :: later /\
    candidates k = first :: later ++ rest.
Proof.
  destruct k; cbn [promise_of candidates].
  - unfold gecko_promise, bind.
    destruct (pullToTemp E u PATHS.SYSTEM PATHS.SOURCES_XML w)
      as [pulled w1] eqn:H1.
    apply pullToTemp_logged in H1.
    assert (exists later rest,
              retrievals (snd (pullFromIni E u w1)) =
                retrievals w ++ (PATHS.SYSTEM, PATHS.SOURCES_XML) :: later /\
              [(PATHS.SYSTEM_B2G, PATHS.APPLICATION_INI);
               (PATHS.SYSTEM_B2G, PATHS.PLATFORM_INI)] = later ++ rest)
      as (later & rest & Hlog & Hrest).
    { destruct (pullFromIni_log E u w1) as [H | H]; rewrite H, H1, <- app_assoc.
      - by exists [(PATHS.SYSTEM_B2G, PATHS.APPLICATION_INI)],
                  [(PATHS.SYSTEM_B2G, PATHS.PLATFORM_INI)].
      - by exists [(PATHS.SYSTEM_B2G, PATHS.APPLICATION_INI);
                   (PATHS.SYSTEM_B2G, PATHS.PLATFORM_INI)], []. }
    assert (exists later rest,
              retrievals w1 =
                retrievals w ++ (PATHS.SYSTEM, PATHS.SOURCES_XML) :: later /\
              [(PATHS.SYSTEM_B2G, PATHS.APPLICATION_INI);
               (PATHS.SYSTEM_B2G, PATHS.PLATFORM_INI)] = later ++ rest)
      as Halone.
    { by exists [], [(PATHS.SYSTEM_B2G, PATHS.APPLICATION_INI);
                     (PATHS.SYSTEM_B2G, PATHS.PLATFORM_INI)]. }
    assert (forall later' rest' w',
              retrievals w' =
                retrievals w ++ (PATHS.SYSTEM, PATHS.SOURCES_XML) :: later' /\
              [(PATHS.SYSTEM_B2G, PATHS.APPLICATION_INI);
               (PATHS.SYSTEM_B2G, PATHS.PLATFORM_INI)] = later' ++ rest' ->
              exists first later0 rest0,
                retrievals w' = retrievals w ++ first :: later0 /\
                [(PATHS.SYSTEM, PATHS.SOURCES_XML);
                 (PATHS.SYSTEM_B2G, PATHS.APPLICATION_INI);
                 (PATHS.SYSTEM_B2G, PATHS.PLATFORM_INI)]
                = first :: later0 ++ rest0) as Hshape.
    { intros later' rest' w' [Hw' Hc].
      exists (PATHS.SYSTEM, PATHS.SOURCES_XML), later', rest'.
      split; [done|]. by rewrite <- Hc. }
    destruct Halone as (l0 & r0 & Halone).
    destruct pulled as [|tempDir|e]; cbn [then_ ret snd].
    + by eapply Hshape.
    + unfold bind, reading.
      destruct (local_fs w1 !! Js.join tempDir PATHS.SOURCES_XML) as [f|];
        cbn [then_ ret snd]; [|by eapply Hshape].
      destruct (getGeckoRevisionFromXml _ _); cbn [then_ ret snd];
        eapply Hshape; eauto.
    + eapply Hshape; eauto.
  - unfold gaia_promise, bind.
    pose proof (pullApplicationZip_log E u w) as Hlog.
    destruct (pullApplicationZip E u w) as [pulled w1]. cbn [snd] in Hlog.
    assert (retrievals (snd (then1 pulled readGaiaCommit w1))
            = retrievals w1) as ->.
    { destruct pulled; cbn [then1 then_ ret snd]; done. }
    destruct Hlog as [-> | ->].
    + by exists (PATHS.B2G_SETTINGS, PATHS.APPLICATION_ZIP), [],
                [(PATHS.DATA_LOCAL_SETTINGS, PATHS.APPLICATION_ZIP)].
    + by exists (PATHS.B2G_SETTINGS, PATHS.APPLICATION_ZIP),
                [(PATHS.DATA_LOCAL_SETTINGS, PATHS.APPLICATION_ZIP)], [].
Qed.

(** X11. What a request retrieves. The retrievals of a request are an
    initial part of the list of its kind, in that order: [sources.xml],
    [application.ini], [platform.ini] for Gecko, and the archive under
    [/system/b2g], then the one under [/data/local], for Gaia. A request
    served from the cache retrieves nothing; any other request starts with
    the first retrieval of its list. *)
Theorem X11_retrieval_budget (E : env) (k : kind) (u : Util) (w : world) :
  exists made rest,
    retrievals (snd (request E k u w)) = retrievals w ++ made /\
    candidates k = made ++ rest /\
    (made = [] <-> Js.truthy (cache k w) = true).
Proof.
  rewrite request_unfold. destruct (Js.truthy (cache k w)).
  - exists [], (candidates k). by rewrite app_nil_r.
  - destruct (promise_log E k u w) as (first & later & rest & Hlog & Hcand).
    destruct (promise_of E k u w) as [p w1]. cbn [snd] in *.
    exists (first :: later), rest. split; [|split; [done|done]].
    rewrite <- Hlog. destruct p; [done | | done]. by destruct k.
Qed.

(** ** More on the scans *)

Lemma no_match_in_chunks (chunks : list string) :
  find has_key (flat_map lines chunks) = None <->
  Forall (fun c => Forall (fun l => has_key l = false) (lines c)) chunks.
Proof. by rewrite find_none_Forall, Forall_flat_map. Qed.

(** X12. The INI scan over a file read in chunks. The scan is rejected
    exactly when no line of any chunk contains [SourceStamp]; otherwise it
    is fulfilled from the first such line of the first chunk that has
    one, with the second [=]-separated piece of that line. *)
Theorem X12_ini_first_match (iniPath : string) (chunks : list string) :
  ((exists err, getGeckoRevisionFromIni iniPath chunks = Rejected err) <->
   Forall (fun c => Forall (fun l => has_key l = false) (lines c)) chunks) /\
  (forall pre c post before line after,
     chunks = pre ++ c :: post ->
     Forall (fun c' => Forall (fun l => has_key l = false) (lines c')) pre ->
     lines c = before ++ line :: after ->
     Forall (fun l => has_key l = false) before ->
     has_key line = true ->
     getGeckoRevisionFromIni iniPath chunks = Fulfilled (Ini.value_of line)).
Proof.
  rewrite ini_scan. split.
  - rewrite <- no_match_in_chunks.
    destruct (find has_key (flat_map lines chunks)); split;
      try done; try (by intros [err Herr]). by eexists.
  - intros pre c post before line after -> Hpre Hc Hbefore Hline.
    rewrite flat_map_app. cbn [flat_map].
    rewrite find_app_first, (proj2 (no_match_in_chunks pre) Hpre).
    rewrite Hc, <- app_assoc. cbn [app].
    by rewrite (find_first has_key before (after ++ flat_map lines post) line).
Qed.

Lemma X12_ini_first_match_witness :
  getGeckoRevisionFromIni "application.ini"
    ["[App]" +:+ newline +:+ "Name=B2G" +:+ newline;
     "BuildID=2015" +:+ newline +:+ "SourceStamp=cafef00d" +:+ newline;
     "SourceStamp=later"]
  = Fulfilled (Js.Str "cafef00d").
Proof.
  refine (proj2 (X12_ini_first_match "application.ini" _)
    ["[App]" +:+ newline +:+ "Name=B2G" +:+ newline]
    ("BuildID=2015" +:+ newline +:+ "SourceStamp=cafef00d" +:+ newline)
    ["SourceStamp=later"]
    ["BuildID=2015"] "SourceStamp=cafef00d" [""]
    eq_refl _ eq_refl _ eq_refl); repeat constructor.
Defined.

(** X13. A matching line without [=]. When the first line that contains
    [SourceStamp] has no [=], the scan does not fail and does not look
    further: it is fulfilled with [undefined]. *)
Theorem X13_ini_no_separator (iniPath line : string) (chunks : list string) :
  find has_key (flat_map lines chunks) = Some line ->
  free_of "=" line = true ->
  getGeckoRevisionFromIni iniPath chunks = Fulfilled Js.Undefined.
Proof.
  intros Hfind Hfree. rewrite ini_scan, Hfind.
  unfold Ini.value_of. by rewrite (split_free _ _ Hfree).
Qed.

Lemma X13_ini_no_separator_witness :
  getGeckoRevisionFromIni "application.ini"
    ["; SourceStamp follows" +:+ newline +:+ "SourceStamp=cafef00d"]
  = Fulfilled Js.Undefined.
Proof.
  exact (X13_ini_no_separator "application.ini" "; SourceStamp follows"
    ["; SourceStamp follows" +:+ newline +:+ "SourceStamp=cafef00d"]
    eq_refl eq_refl).
Defined.

(** X14. A scan that has found its value keeps it. Whatever the stream
    delivers afterwards (more chunks, more elements, more entries), the
    promise stays fulfilled with the first value: this holds for the INI
    scan, the XML scan and the archive extraction. *)
Theorem X14_first_value_stays :
  (forall iniPath chunks more v,
     getGeckoRevisionFromIni iniPath chunks = Fulfilled v ->
     getGeckoRevisionFromIni iniPath (chunks ++ more) = Fulfilled v) /\
  (forall xmlPath opened more v,
     getGeckoRevisionFromXml xmlPath opened = Fulfilled v ->
     getGeckoRevisionFromXml xmlPath (opened ++ more) = Fulfilled v) /\
  (forall entries more filePath e,
     readFileFromZip entries filePath = Fulfilled e ->
     readFileFromZip (entries ++ more) filePath = Fulfilled e).
Proof.
  split; [|split].
  - intros iniPath chunks more v. rewrite !ini_scan, flat_map_app.
    rewrite find_app_first.
    by destruct (find has_key (flat_map lines chunks)).
  - intros xmlPath opened more v. rewrite !xml_scan, find_app_first.
    by destruct (find Xml.is_gecko_project opened).
  - intros entries more filePath e. unfold readFileFromZip.
    rewrite !zip_run. cbn [Zip.result]. rewrite find_app_first.
    by destruct (find (is_target filePath) entries).
Qed.

Lemma X14_first_value_stays_witness :
  getGeckoRevisionFromXml "sources.xml"
    (Sample.manifest ++
     [Node "PROJECT" (<["NAME" := "gecko"]> (<["REVISION" := "zzz"]> ∅))])
  = Fulfilled (Js.Str "abc123").
Proof.
  exact (proj1 (proj2 X14_first_value_stays) "sources.xml" Sample.manifest
    [Node "PROJECT" (<["NAME" := "gecko"]> (<["REVISION" := "zzz"]> ∅))]
    (Js.Str "abc123") eq_refl).
Defined.

Lemma prefix_cons (a b : Ascii.ascii) (k s : string) :
  String.prefix (String a k) (String b s) =
  if Ascii.ascii_dec a b then String.prefix k s else false.
Proof. reflexivity. Qed.

Lemma prefix_app (k b : string) : String.prefix k (k +:+ b) = true.
Proof.
  induction k as [|x k IH]; [by destruct b|].
  rewrite string_app_cons, prefix_cons.
  by destruct (Ascii.ascii_dec x x).
Qed.

Lemma prefix_inv (k s : string) :
  String.prefix k s = true -> exists b, s = k +:+ b.
Proof.
  revert s. induction k as [|x k IH]; intros s.
  - intros _. by exists s.
  - destruct s as [|y s]; [done|]. rewrite prefix_cons.
    destruct (Ascii.ascii_dec x y) as [->|]; [|done].
    intros [b ->]%IH. exists b. by rewrite string_app_cons.
Qed.

Lemma index_cons (k : string) (c : Ascii.ascii) (s : string) :
  String.index 0 k (String c s) =
  if String.prefix k (String c s) then Some 0
  else match String.index 0 k s with
       | Some n => Some (S n)
       | None => None
       end.
Proof. reflexivity. Qed.

Lemma index_found (x : Ascii.ascii) (k a b : string) :
  exists n, String.index 0 (String x k) (a +:+ String x k +:+ b) = Some n.
Proof.
  induction a as [|y a [n IH]].
  - rewrite string_app_nil_l, string_app_cons, index_cons.
    rewrite <- string_app_cons, prefix_app. by exists 0.
  - rewrite string_app_cons, index_cons.
    destruct (String.prefix _ _); [by exists 0|]. rewrite IH. by exists (S n).
Qed.

Lemma index_decompose (x : Ascii.ascii) (k s : string) (n : nat) :
  String.index 0 (String x k) s = Some n ->
  exists a b, s = a +:+ String x k +:+ b.
Proof.
  revert n. induction s as [|c s IH]; intros n; [done|].
  rewrite index_cons. destruct (String.prefix _ _) eqn:Hp.
  - intros _. apply prefix_inv in Hp as [b ->]. by exists ""%string, b.
  - destruct (String.index 0 (String x k) s) as [m|]; [|done].
    intros _. destruct (IH m eq_refl) as (a & b & ->).
    exists (String c a), b. by rewrite string_app_cons.
Qed.

(** X15. Which lines the INI scan takes. A line is taken exactly when
    [SourceStamp] occurs somewhere in it: at its start, after other text
    or inside a value. The scan does not ask that the line begins with
    the key, nor that [=] follows it. *)
Theorem X15_key_is_substring (line : string) :
  Ini.lacks_key line = false <->
  exists before after, line = before +:+ "SourceStamp" +:+ after.
Proof.
  unfold Ini.lacks_key, Js.indexOf. split.
  - destruct (String.index 0 "SourceStamp" line) as [n|] eqn:H; [|done].
    intros _. by eapply index_decompose.
  - intros (before & after & ->).
    by destruct (index_found "S" "ourceStamp" before after) as [n ->].
Qed.

Lemma X15_key_is_substring_witness :
  Ini.lacks_key "Comment=see SourceStamp below" = false.
Proof.
  apply (proj2 (X15_key_is_substring "Comment=see SourceStamp below")).
  by exists "Comment=see "%string, " below"%string.
Defined.

(** ** Temporary directories and local files *)

Lemma accounted_ret {A} (a : A) : accounted (ret a).
Proof. intros w. exists 0. cbn. repeat split; auto with lia. Qed.

Lemma accounted_bind {A B} (m : M A) (k : A -> M B) :
  accounted m -> (forall a, accounted (k a)) -> accounted (bind m k).
Proof.
  intros Hm Hk w. unfold bind. destruct (Hm w) as (n1 & H1 & H2 & H3 & H4).
  destruct (m w) as [a w1]. cbn [snd] in *.
  destruct (Hk a w1) as (n2 & H5 & H6 & H7 & H8).
  exists (n1 + n2). repeat split; [lia | lia | lia | auto].
Qed.

Lemma accounted_then_ {A B} (p : promise A)
    (f : A -> M (promise B)) (g : reason -> M (promise B)) :
  (forall a, accounted (f a)) -> (forall e, accounted (g e)) ->
  accounted (then_ p f g).
Proof. intros Hf Hg. destruct p; cbn [then_]; auto using accounted_ret. Qed.

Lemma accounted_reading {A} (path : string) (k : file -> promise A) :
  accounted (reading path k).
Proof. intros w. exists 0. cbn. repeat split; auto with lia. Qed.

Lemma accounted_pullToTemp (E : env) (u : Util) (remotePath file : string) :
  accounted (pullToTemp E u remotePath file).
Proof.
  intros w. exists 1. rewrite pullToTemp_cases. cbn zeta.
  destruct (temp_mkdir E (mkdirs w)).
  { cbn. rewrite length_app. cbn. repeat split; auto with lia. }
  destruct (adb_pull E _ _ _) as [e|[f|]]; cbn; rewrite !length_app; cbn;
    repeat split; auto with lia.
  intros path Hpath. rewrite lookup_insert_is_Some.
  destruct (decide (Js.join (temp_name (mkdirs w)) file = path)); auto.
Qed.

Lemma accounted_store (k : kind) (sha : Js.value) : accounted (store k sha).
Proof. intros w. exists 0. destruct k; cbn; repeat split; auto with lia. Qed.

Ltac account :=
  repeat match goal with
         | |- accounted (pullToTemp _ _ _ _) => apply accounted_pullToTemp
         | |- accounted (ret _) => apply accounted_ret
         | |- accounted (reading _ _) => apply accounted_reading
         | |- accounted (bind _ _) => apply accounted_bind
         | |- accounted (then_ _ _ _) => apply accounted_then_
         | |- forall _, accounted _ => intro
         end.

Lemma accounted_pullFromIni (E : env) (u : Util) : accounted (pullFromIni E u).
Proof.
  unfold pullFromIni, pullB2GIni, then1. account.
  destruct (read_tempDir E); apply accounted_ret.
Qed.

Lemma accounted_promise_of (E : env) (k : kind) (u : Util) :
  accounted (promise_of E k u).
Proof.
  pose proof (accounted_pullFromIni E u) as Hini.
  destruct k; cbn [promise_of].
  - unfold gecko_promise. account; cbn zeta; account; assumption.
  - unfold gaia_promise, pullApplicationZip, then1, readGaiaCommit.
    account; cbn zeta; account.
Qed.

(** X16. Temporary directories and local files across a request. During
    a request [temp.mkdir] is called exactly as many times as retrievals
    are made, the number of [adb pull] commands issued is at most the
    number of retrievals, and no local file that existed before the
    request is removed by it: what was pulled is left behind. *)
Theorem X16_request_accounting (E : env) (k : kind) (u : Util) (w : world) :
  exists n,
    mkdirs (snd (request E k u w)) = mkdirs w + n /\
    length (retrievals (snd (request E k u w))) = length (retrievals w) + n /\
    length (adb_pulls (snd (request E k u w))) <= length (adb_pulls w) + n /\
    (forall path, is_Some (local_fs w !! path) ->
                  is_Some (local_fs (snd (request E k u w)) !! path)).
Proof.
  rewrite request_unfold. destruct (Js.truthy (cache k w)).
  { exists 0. cbn. repeat split; auto with lia. }
  destruct (accounted_promise_of E k u w) as (n & H1 & H2 & H3 & H4).
  destruct (promise_of E k u w) as [p w1]. cbn [snd] in *.
  exists n. destruct p as [|sha|e]; [done | | done].
  destruct (accounted_store k sha w1) as (m & H5 & H6 & H7 & H8).
  assert (m = 0) as -> by (destruct k; cbn in H5; lia).
  repeat split; [lia | lia | lia | auto].
Qed.

(** ** The commands sent to the device *)

Section Pulls.

Variable P : string * string * string -> Prop.

Lemma pulls_ret {A} (a : A) : pulls_only P (ret a).
Proof. intros w. exists []. by rewrite app_nil_r. Qed.

Lemma pulls_bind {A B} (m : M A) (k : A -> M B) :
  pulls_only P m -> (forall a, pulls_only P (k a)) -> pulls_only P (bind m k).
Proof.
  intros Hm Hk w. unfold bind. destruct (Hm w) as (new1 & H1 & HP1).
  destruct (m w) as [a w1]. cbn [snd] in *.
  destruct (Hk a w1) as (new2 & H2 & HP2).
  exists (new1 ++ new2). split.
  - by rewrite H2, H1, <- app_assoc.
  - by apply Forall_app.
Qed.

Lemma pulls_then_ {A B} (p : promise A)
    (f : A -> M (promise B)) (g : reason -> M (promise B)) :
  (forall a, pulls_only P (f a)) -> (forall e, pulls_only P (g e)) ->
  pulls_only P (then_ p f g).
Proof. intros Hf Hg. destruct p; cbn [then_]; auto using pulls_ret. Qed.

Lemma pulls_reading {A} (path : string) (k : file -> promise A) :
  pulls_only P (reading path k).
Proof. intros w. exists []. by rewrite app_nil_r. Qed.

Lemma pulls_store (k : kind) (sha : Js.value) : pulls_only P (store k sha).
Proof. intros w. exists []. destruct k; cbn; by rewrite app_nil_r. Qed.

Lemma pulls_pullToTemp (E : env) (u : Util) (remotePath file : string) :
  (forall local, P (serial u, Js.join remotePath file, local)) ->
  pulls_only P (pullToTemp E u remotePath file).
Proof.
  intros HP w. rewrite pullToTemp_cases. cbn zeta.
  destruct (temp_mkdir E (mkdirs w)).
  { exists []. cbn. by rewrite app_nil_r. }
  destruct (adb_pull E _ _ _) as [e|[f|]]; cbn; eexists; split; try done;
    by repeat constructor.
Qed.

End Pulls.

Ltac pulls :=
  repeat match goal with
         | |- pulls_only _ (pullToTemp _ _ _ _) => apply pulls_pullToTemp
         | |- pulls_only _ (ret _) => apply pulls_ret
         | |- pulls_only _ (reading _ _) => apply pulls_reading
         | |- pulls_only _ (bind _ _) => apply pulls_bind
         | |- pulls_only _ (then_ _ _ _) => apply pulls_then_
         | |- forall _, pulls_only _ _ => intro
         end.

Lemma pulls_promise_of (E : env) (k : kind) (u : Util) :
  pulls_only (pull_of u k) (promise_of E k u).
Proof.
  assert (pulls_only (pull_of u Gecko) (pullFromIni E u)) as Hini.
  { unfold pullFromIni, pullB2GIni, then1. pulls;
      try (destruct (read_tempDir E); apply pulls_ret);
      intros local; split; cbn; auto. }
  destruct k; cbn [promise_of].
  - unfold gecko_promise. pulls; cbn zeta; pulls; try assumption.
    intros local; split; cbn; auto.
  - unfold gaia_promise, pullApplicationZip, then1, readGaiaCommit.
    pulls; cbn zeta; pulls; intros local; split; cbn; auto.
Qed.

(** X17. What a request asks of the device. Every [adb pull] of a request
    is made with the serial of the [Util] instance the request went
    through, and its remote path is one of the fixed paths of the kind:
    [/system/sources.xml] and the two descriptors under [/system/b2g] for
    Gecko, the two locations of [application.zip] for Gaia. Nothing else
    is pulled, and the earlier pulls stay in the log. *)
Theorem X17_request_pulls (E : env) (k : kind) (u : Util) (w : world) :
  exists new,
    adb_pulls (snd (request E k u w)) = adb_pulls w ++ new /\
    Forall (fun p => fst (fst p) = serial u /\
                     In (snd (fst p)) (remote_paths k)) new.
Proof.
  rewrite request_unfold. destruct (Js.truthy (cache k w)).
  { exists []. by rewrite app_nil_r. }
  destruct (pulls_promise_of E k u w) as (new & Hnew & HP).
  destruct (promise_of E k u w) as [p w1]. cbn [snd] in *.
  exists new. split; [|done]. rewrite <- Hnew.
  destruct p; [done | | done]. by destruct k.
Qed.

(** ** [path.join] on the paths of the module and on others *)

Example join_settings :
  PATHS.B2G_SETTINGS = "/system/b2g/webapps/settings.gaiamobile.org" /\
  PATHS.DATA_LOCAL_SETTINGS = "/data/local/webapps/settings.gaiamobile.org".
Proof. split; reflexivity. Qed.

Example join_normalises :
  Js.join "/system/" "sources.xml" = "/system/sources.xml" /\
  Js.join "/system/b2g" "../sources.xml" = "/system/sources.xml" /\
  Js.join "a" "../../b" = "../b" /\
  Js.join "/tmp/raptor-temp0" "" = "/tmp/raptor-temp0" /\
  Js.join "" "" = ".".
Proof. repeat split; reflexivity. Qed.
